(** * YTD: the YouTube download API of [main.py]

    A shallow embedding of the three functions of [main.py]
    ([validate_youtube_url], [extract_download_link], [download_endpoint])
    and the properties of its specification.

    Python strings are sequences of Unicode code points, so a string is a
    list of code points ([N]).  The [re] patterns of the source are
    transcribed into a small regular-expression syntax and run by a
    backtracking matcher; [yt_dlp] and [str.lower] are external to the
    program and are parameters of the development.  Every function records
    the calls it makes ([re.search], the logger, the extraction library) in
    a trace, so that statements about what happens "before" something else
    can be read off the trace. *)

From Stdlib Require Import NArith ZArith Lia Bool String Ascii.
From stdpp Require Import base option list gmap.

Local Open Scope N_scope.

(** ** Python strings *)

Module PyStr.

(** A Python [str]: a sequence of code points. *)
Definition pystr := list N.

(** A string literal of the source, written as a Rocq string. *)
Definition str (s : string) : pystr :=
  map N_of_ascii (list_ascii_of_string s).

(** [str.isspace] on one code point: the code points CPython's
    [_PyUnicode_IsWhitespace] accepts. *)
Definition is_space (c : N) : bool :=
  ((9 <=? c) && (c <=? 13)) || ((28 <=? c) && (c <=? 32))
  || (c =? 133) || (c =? 160) || (c =? 5760)
  || ((8192 <=? c) && (c <=? 8202))
  || (c =? 8232) || (c =? 8233) || (c =? 8239) || (c =? 8287)
  || (c =? 12288).

(** [s.lstrip()]. *)
Fixpoint lstrip (s : pystr) : pystr :=
  match s with
  | [] => []
  | c :: s' => if is_space c then lstrip s' else s
  end.

(** [s.rstrip()]. *)
Fixpoint rstrip (s : pystr) : pystr :=
  match s with
  | [] => []
  | c :: s' =>
      match rstrip s' with
      | [] => if is_space c then [] else [c]
      | t => c :: t
      end
  end.

(** [s.strip()]. *)
Definition strip (s : pystr) : pystr := rstrip (lstrip s).

Fixpoint eqb (s t : pystr) : bool :=
  match s, t with
  | [], [] => true
  | c :: s', d :: t' => (c =? d) && eqb s' t'
  | _, _ => false
  end.

(** [s.startswith(l)], returning what follows [l]. *)
Fixpoint strip_prefix (l s : pystr) : option pystr :=
  match l, s with
  | [], _ => Some s
  | c :: l', d :: s' => if c =? d then strip_prefix l' s' else None
  | _ :: _, [] => None
  end.

(** [l in s] for strings: [l] occurs in [s] as a substring. *)
Fixpoint contains (l s : pystr) : bool :=
  match strip_prefix l s with
  | Some _ => true
  | None => match s with
            | [] => false
            | _ :: s' => contains l s'
            end
  end.

End PyStr.
Export PyStr.

(** ** Regular expressions: the fragment of [re] that [main.py] uses *)

Module Re.

(** An item of a character set [[...]]. *)
Inductive set_item :=
| Range (lo hi : N)
| Single (c : N).

Definition in_item (c : N) (it : set_item) : bool :=
  match it with
  | Range lo hi => (lo <=? c) && (c <=? hi)
  | Single x => c =? x
  end.

Definition in_set (cl : list set_item) (c : N) : bool :=
  existsb (in_item c) cl.

Inductive regex :=
| Lit (l : pystr)              (* literal characters, escapes resolved *)
| CharSet (cl : list set_item) (* [...] *)
| Cat (r1 r2 : regex)          (* r1 r2 *)
| Alt (r1 r2 : regex)          (* r1|r2 *)
| Rep (n : nat) (r : regex)    (* r{n} *)
| Plus (r : regex)             (* r+, greedy *)
| Group (r : regex)            (* (r), the capturing group *)
| NonCap (r : regex).          (* (?:r) *)

(** A match object, as far as the program looks at it: the text of
    group 1, [None] when the group took no part in the match. *)
Definition match_obj := option pystr.

(** The rest of a match: what remains to be matched after a
    sub-expression, given the remaining input and the group captured
    so far. *)
Definition cont := pystr -> option pystr -> option match_obj.

(** Zero or more further iterations of a greedy repetition, longest
    first; an iteration that consumes nothing is not repeated. *)
Fixpoint star (step : pystr -> option pystr -> cont -> option match_obj)
    (fuel : nat) (s : pystr) (g : option pystr) (k : cont)
    : option match_obj :=
  match fuel with
  | O => k s g
  | S fuel' =>
      match step s g (fun s' g' =>
               if (length s' <? length s)%nat
               then star step fuel' s' g' k else None) with
      | Some m => Some m
      | None => k s g
      end
  end.

(** Exactly [n] iterations. *)
Fixpoint times (step : pystr -> option pystr -> cont -> option match_obj)
    (n : nat) (s : pystr) (g : option pystr) (k : cont)
    : option match_obj :=
  match n with
  | O => k s g
  | S n' => step s g (fun s' g' => times step n' s' g' k)
  end.

(** The backtracking matcher: match [r] at the start of [s], then the
    continuation; alternatives are tried left to right, repetitions
    longest first. *)
Fixpoint match_at (r : regex) (s : pystr) (g : option pystr) (k : cont)
    {struct r} : option match_obj :=
  match r with
  | Lit l =>
      match strip_prefix l s with
      | Some s' => k s' g
      | None => None
      end
  | CharSet cl =>
      match s with
      | c :: s' => if in_set cl c then k s' g else None
      | [] => None
      end
  | Cat r1 r2 => match_at r1 s g (fun s' g' => match_at r2 s' g' k)
  | Alt r1 r2 =>
      match match_at r1 s g k with
      | Some m => Some m
      | None => match_at r2 s g k
      end
  | Rep n r' => times (match_at r') n s g k
  | Plus r' =>
      match_at r' s g (fun s1 g1 => star (match_at r') (length s1) s1 g1 k)
  | Group r' =>
      match_at r' s g
        (fun s' _ => k s' (Some (take (length s - length s') s)))
  | NonCap r' => match_at r' s g k
  end.

(** A match of the whole pattern starting exactly at [s]. *)
Definition match_here (r : regex) (s : pystr) : option match_obj :=
  match_at r s None (fun _ g => Some g).

(** [re.search(r, s)]: the match at the leftmost position that has one,
    or [None]. *)
Fixpoint search (r : regex) (s : pystr) : option match_obj :=
  match match_here r s with
  | Some m => Some m
  | None => match s with
            | [] => None
            | _ :: s' => search r s'
            end
  end.

End Re.
Export Re.

(** ** Python values, exceptions and effects *)

Module Py.

(** The values the extraction library hands back: its metadata is a
    loosely typed dictionary.  (Floats do not occur in the fields the
    program reads and are left out.) *)
#[warnings="-register-all"]
Inductive pyval :=
| VNone
| VBool (b : bool)
| VInt (z : Z)
| VStr (s : pystr)
| VList (l : list pyval)
| VDict (d : gmap pystr pyval).

(** [type(v).__name__]. *)
Definition type_name (v : pyval) : pystr :=
  match v with
  | VNone => str "NoneType"
  | VBool _ => str "bool"
  | VInt _ => str "int"
  | VStr _ => str "str"
  | VList _ => str "list"
  | VDict _ => str "dict"
  end.

(** [bool(v)]. *)
Definition truthy (v : pyval) : bool :=
  match v with
  | VNone => false
  | VBool b => b
  | VInt z => negb (z =? 0)%Z
  | VStr s => negb (Nat.eqb (length s) 0)
  | VList l => negb (Nat.eqb (length l) 0)
  | VDict d => negb (Nat.eqb (size d) 0)
  end.

(** Exception classes; a class stands for itself and its subclasses.
    [LibraryError] is any class of the extraction library (all derive
    from [Exception], none from [ValueError] or [RuntimeError]). *)
Inductive exn_class :=
| ValueError
| RuntimeError
| TypeError
| IndexError
| KeyError
| AttributeError
| LibraryError (name : string).

(** An exception: its class and [str(e)]. *)
Record exn := Exn { exn_class_of : exn_class; exn_str : pystr }.

Inductive log_level := INFO | ERROR.

(** Options handed to [yt_dlp.YoutubeDL]. *)
Record ydl_opts := YdlOpts {
  quiet : bool;
  noplaylist : bool;
  format : pystr;
  extract_flat : bool;
  skip_download : bool
}.

(** What a function does besides computing its result. *)
Inductive event :=
| ReSearch (r : regex) (s : pystr)            (* re.search(r, s) *)
| Logged (level : log_level) (msg : pystr)    (* logger.info / .exception *)
| ExtractInfo (opts : ydl_opts) (url : pystr). (* ydl.extract_info(url) *)

Inductive outcome (A : Type) :=
| Returned (a : A)
| Raised (e : exn).
Arguments Returned {A} a.
Arguments Raised {A} e.

(** A computation: the events it performed, in order, and how it ended. *)
Definition M (A : Type) : Type := list event * outcome A.

Definition ret {A} (a : A) : M A := ([], Returned a).

Definition raise {A} (c : exn_class) (msg : pystr) : M A :=
  ([], Raised (Exn c msg)).

Definition emit (e : event) : M unit := ([e], Returned tt).

Definition bind {A B} (m : M A) (f : A -> M B) : M B :=
  match m with
  | (t, Returned a) => let (t', o) := f a in (t ++ t', o)
  | (t, Raised e) => (t, Raised e)
  end.

(** [try: m  except Exception as e: h e]. *)
Definition try_except {A} (m : M A) (h : exn -> M A) : M A :=
  match m with
  | (t, Returned a) => (t, Returned a)
  | (t, Raised e) => let (t', o) := h e in (t ++ t', o)
  end.

Definition trace {A} (m : M A) : list event := fst m.
Definition result {A} (m : M A) : outcome A := snd m.

End Py.
Export Py.

Notation "'let*' x ':=' m 'in' k" := (bind m (fun x => k))
  (at level 10, x name, m at level 100, k at level 200).
Notation "'run' m 'then' k" := (bind m (fun _ => k))
  (at level 10, m at level 100, k at level 200).

(** ** The program *)

Module Main.

(** Builtin operations on values, with the exceptions CPython raises. *)

(** [v[0]]. *)
Definition index0 (v : pyval) : M pyval :=
  match v with
  | VList (x :: _) => ret x
  | VList [] => raise IndexError (str "list index out of range")
  | VStr (c :: _) => ret (VStr [c])
  | VStr [] => raise IndexError (str "string index out of range")
  | VDict _ => raise KeyError (str "0")
  | _ => raise TypeError
           (str "'" ++ type_name v ++ str "' object is not subscriptable")
  end.

(** [v.get(key, default)]: only dictionaries have the method. *)
Definition get (v : pyval) (key : pystr) (default : pyval) : M pyval :=
  match v with
  | VDict d => ret (match d !! key with Some x => x | None => default end)
  | _ => raise AttributeError
           (str "'" ++ type_name v ++ str "' object has no attribute 'get'")
  end.

(** [f"{g}"] for the value of [match.group(1)]. *)
Definition fmt (g : option pystr) : pystr :=
  match g with
  | Some s => s
  | None => str "None"
  end.

Definition re_search (r : regex) (s : pystr) : M (option match_obj) :=
  run emit (ReSearch r s) then ret (search r s).

Definition logger_info (msg : pystr) : M unit := emit (Logged INFO msg).
Definition logger_exception (msg : pystr) : M unit :=
  emit (Logged ERROR msg).

(** *** URL validation *)

(** [[A-Za-z0-9_-]] *)
Definition id_chars : list set_item :=
  [Range 65 90; Range 97 122; Range 48 57; Single 95; Single 45].

(** [(youtube\.com|youtu\.be)] *)
Definition host_pattern : regex :=
  Group (Alt (Lit (str "youtube.com")) (Lit (str "youtu.be"))).

Definition video_patterns : list regex :=
  [ Cat (NonCap (Lit (str "youtube.com/watch?v=")))
        (Group (Rep 11 (CharSet id_chars)));
    Cat (NonCap (Lit (str "youtu.be/")))
        (Group (Rep 11 (CharSet id_chars)));
    Cat (NonCap (Lit (str "youtube.com/shorts/")))
        (Group (Rep 11 (CharSet id_chars))) ].

Definition playlist_pattern : regex :=
  Cat (NonCap (Lit (str "youtube.com/playlist?list=")))
      (Group (Plus (CharSet id_chars))).

(** The dictionary [validate_youtube_url] returns. *)
Record validated := Validated {
  v_type : pystr;
  v_id : option pystr;
  v_clean_url : pystr
}.

(** The loop over [video_patterns]: the first pattern that matches
    returns from the function; [None] when the loop runs to its end. *)
Fixpoint first_video (patterns : list regex) (url : pystr)
    : M (option validated) :=
  match patterns with
  | [] => ret None
  | pattern :: rest =>
      let* m := re_search pattern url in
      match m with
      | Some video_id =>
          let clean_url :=
            str "https://www.youtube.com/watch?v=" ++ fmt video_id in
          ret (Some (Validated (str "video") video_id clean_url))
      | None => first_video rest url
      end
  end.

Definition validate_youtube_url (url : pyval) : M validated :=
  match url with
  | VStr u =>
      match strip u with
      | [] => raise ValueError (str "URL must be a non-empty string")
      | _ :: _ =>
          let url := strip u in
          let* host := re_search host_pattern url in
          match host with
          | None => raise ValueError (str "Not a valid YouTube URL")
          | Some _ =>
              let* video := first_video video_patterns url in
              match video with
              | Some v => ret v
              | None =>
                  let* m := re_search playlist_pattern url in
                  match m with
                  | Some playlist_id =>
                      let clean_url :=
                        str "https://www.youtube.com/playlist?list="
                        ++ fmt playlist_id in
                      ret (Validated (str "playlist") playlist_id clean_url)
                  | None =>
                      raise ValueError (str "Invalid YouTube URL format")
                  end
              end
          end
      end
  | _ => raise ValueError (str "URL must be a non-empty string")
  end.

(** *** Extraction and the endpoint *)

Definition audio_opts : ydl_opts :=
  YdlOpts true true (str "bestaudio/best") false true.

Definition video_opts : ydl_opts :=
  YdlOpts true true (str "best[ext=mp4]/best") false true.

(** What [extract_download_link] returns. *)
Record link := Link { title : pyval; download_url : pyval }.

(** The body of the success response. *)
Record success := Success {
  status : pystr;
  s_title : pyval;
  s_download_url : pyval
}.

Record DownloadRequest := Request { url : pystr; mode : pystr }.

(** How a call of the endpoint ends: it returns a body (answered with
    status 200), raises [HTTPException], or lets an exception through. *)
Inductive response :=
| Return (body : success)
| RaiseHTTP (status_code : Z) (detail : pystr)
| Uncaught (e : exn).

(** The status the client sees; the framework answers an exception
    nobody caught with 500. *)
Definition http_status (r : response) : Z :=
  match r with
  | Return _ => 200
  | RaiseHTTP c _ => c
  | Uncaught _ => 500
  end.

Section Collaborators.

(** [ydl.extract_info(url, download=False)] of a [YoutubeDL] built
    from the options: an info dictionary, or an exception. *)
Variable extract_info : ydl_opts -> pystr -> outcome (gmap pystr pyval).

(** [str.lower]. *)
Variable lower : pystr -> pystr.

Definition ydl_extract_info (opts : ydl_opts) (url : pystr)
    : M (gmap pystr pyval) :=
  ([ExtractInfo opts url], extract_info opts url).

(** What follows the call of the library: pick the first entry of a
    playlist-shaped result, read [url] and [title]. *)
Definition select_entry (info : gmap pystr pyval) : M pyval :=
  match info !! str "entries" with
  | Some entries => index0 entries
  | None => ret (VDict info)
  end.

Definition read_link (info : pyval) : M link :=
  let* download_url := get info (str "url") VNone in
  let* title := get info (str "title") (VStr (str "video")) in
  if negb (truthy download_url)
  then raise RuntimeError (str "Could not extract download URL")
  else
    run logger_info (str "Extraction successful") then
    ret (Link title download_url).

(** The [try] block of [extract_download_link]. *)
Definition extract_body (url mode : pystr) : M link :=
  let* validated_url := validate_youtube_url (VStr url) in
  let url := v_clean_url validated_url in
  run logger_info (str "Extracting link for: " ++ url
                   ++ str " | mode: " ++ mode) then
  let* ydl_opts :=
    if PyStr.eqb mode (str "audio") then ret audio_opts
    else if PyStr.eqb mode (str "video") then ret video_opts
    else raise ValueError (str "Mode must be 'audio' or 'video'") in
  let* info := ydl_extract_info ydl_opts url in
  let* info := select_entry info in
  read_link info.

Definition extract_download_link (url mode : pystr) : M link :=
  try_except (extract_body url mode)
    (fun e =>
       run logger_exception (str "Extraction failed") then
       raise RuntimeError (exn_str e)).

Definition download_endpoint (request : DownloadRequest)
    : list event * response :=
  match extract_download_link (url request) (lower (mode request)) with
  | (t, Returned result) =>
      (t, Return (Success (str "success")
                          (title result) (download_url result)))
  | (t, Raised e) =>
      (t, match exn_class_of e with
          | ValueError => RaiseHTTP 400 (exn_str e)
          | RuntimeError => RaiseHTTP 500 (exn_str e)
          | _ => Uncaught e
          end)
  end.

End Collaborators.

(** The liveness probe, [GET /]. *)
Definition root : list (pystr * pystr) :=
  [(str "status", str "API is running")].

End Main.
Export Main.

(** ** Notions used to state the properties *)

Module Views.

Implicit Types (u id mode : pystr) (p : regex).

(** Whether [re.search(p, u)] finds a match. *)
Definition matches p u : bool :=
  match search p u with
  | Some _ => true
  | None => false
  end.

(** The match object of the first pattern of the list that matches. *)
Fixpoint first_match (ps : list regex) u : option match_obj :=
  match ps with
  | [] => None
  | p :: ps' =>
      match search p u with
      | Some m => Some m
      | None => first_match ps' u
      end
  end.

(** The patterns the loop tries: up to and including the first that
    matches. *)
Fixpoint tried (ps : list regex) u : list regex :=
  match ps with
  | [] => []
  | p :: ps' => p :: (if matches p u then [] else tried ps' u)
  end.

Definition video_of (g : match_obj) : validated :=
  Validated (str "video") g (str "https://www.youtube.com/watch?v=" ++ fmt g).

Definition playlist_of (g : match_obj) : validated :=
  Validated (str "playlist") g
            (str "https://www.youtube.com/playlist?list=" ++ fmt g).

(** URLs of the recognised shapes. *)
Definition watch_url id := str "https://www.youtube.com/watch?v=" ++ id.
Definition short_url id := str "https://youtu.be/" ++ id.
Definition shorts_url id := str "https://www.youtube.com/shorts/" ++ id.
Definition playlist_url id :=
  str "https://www.youtube.com/playlist?list=" ++ id.

(** An identifier: characters of [[A-Za-z0-9_-]]. *)
Definition is_id id : bool := forallb (in_set id_chars) id.

(** The options chosen for a mode; [None] for a mode that is neither
    [audio] nor [video]. *)
Definition opts_of mode : option ydl_opts :=
  if PyStr.eqb mode (str "audio") then Some audio_opts
  else if PyStr.eqb mode (str "video") then Some video_opts
  else None.

(** What the catch-all of [extract_download_link] makes of an outcome. *)
Definition rewrap {A} (o : outcome A) : outcome A :=
  match o with
  | Returned a => Returned a
  | Raised e => Raised (Exn RuntimeError (exn_str e))
  end.

Definition is_extract_info (e : event) : bool :=
  match e with
  | ExtractInfo _ _ => true
  | _ => false
  end.

(** The library was called somewhere in the trace. *)
Definition calls_library (t : list event) : bool := existsb is_extract_info t.

Definition is_error_log (e : event) : bool :=
  match e with
  | Logged ERROR _ => true
  | _ => false
  end.

(** The three messages of the validator. *)
Definition validator_messages : list pystr :=
  [str "URL must be a non-empty string";
   str "Not a valid YouTube URL";
   str "Invalid YouTube URL format"].

End Views.
Export Views.

(** ** Inputs for the examples *)

Module Examples.

(** [str.lower] on ASCII text (the modes of the examples are ASCII). *)
Definition ascii_lower (s : pystr) : pystr :=
  map (fun c => if (65 <=? c) && (c <=? 90) then c + 32 else c) s.

(** A library that resolves every URL to one medium. *)
Definition single_medium (_ : ydl_opts) (_ : pystr)
    : outcome (gmap pystr pyval) :=
  Returned (<[str "title" := VStr (str "Never Gonna Give You Up")]>
            (<[str "url" := VStr (str "https://cdn.example/v.mp4")]> ∅)).

(** A library that answers with a playlist of two entries. *)
Definition two_entries (_ : ydl_opts) (_ : pystr)
    : outcome (gmap pystr pyval) :=
  Returned
    (<[str "title" := VStr (str "Mix")]>
     (<[str "entries" :=
          VList [VDict (<[str "title" := VStr (str "First")]>
                        (<[str "url" := VStr (str "https://cdn.example/1")]> ∅));
                 VDict (<[str "title" := VStr (str "Second")]>
                        (<[str "url" := VStr (str "https://cdn.example/2")]> ∅))]]>
      ∅)).

(** A library whose result has a direct URL and no title. *)
Definition untitled (_ : ydl_opts) (_ : pystr)
    : outcome (gmap pystr pyval) :=
  Returned (<[str "url" := VStr (str "https://cdn.example/v.mp4")]> ∅).

(** A library whose result has a title but an empty direct URL. *)
Definition unresolved_url (_ : ydl_opts) (_ : pystr)
    : outcome (gmap pystr pyval) :=
  Returned (<[str "title" := VStr (str "Private video")]>
            (<[str "url" := VStr (str "")]> ∅)).

(** A library that fails. *)
Definition unavailable (_ : ydl_opts) (_ : pystr)
    : outcome (gmap pystr pyval) :=
  Raised (Exn (LibraryError "DownloadError") (str "Video unavailable")).

(** A library whose playlist is empty, although the answer has a URL of
    its own. *)
Definition empty_playlist (_ : ydl_opts) (_ : pystr)
    : outcome (gmap pystr pyval) :=
  Returned (<[str "url" := VStr (str "https://cdn.example/list")]>
            (<[str "entries" := VList []]> ∅)).

(** A library whose playlist begins with an entry it could not resolve. *)
Definition unresolved_entry (_ : ydl_opts) (_ : pystr)
    : outcome (gmap pystr pyval) :=
  Returned (<[str "entries" :=
               VList [VNone;
                      VDict (<[str "url" := VStr (str "https://cdn.example/2")]> ∅)]]>
            ∅).

End Examples.
Export Examples.

(** ** The matcher at work *)

Example search_demo :
  search (Cat (NonCap (Lit (str "youtu.be/")))
              (Group (Rep 3 (CharSet [Range 65 90; Range 97 122]))))
         (str "x youtu.be/ab youtu.be/abcd")
  = Some (Some (str "abc")).
Proof. reflexivity. Qed.

Example plus_demo :
  search (Cat (Lit (str "list=")) (Group (Plus (CharSet [Range 97 122]))))
         (str "?list=abc&x")
  = Some (Some (str "abc")).
Proof. reflexivity. Qed.

(** The identifier characters, among the ASCII characters. *)
Example id_chars_ascii :
  List.filter (in_set id_chars) (map N.of_nat (seq 0 128))
  = str "-0123456789ABCDEFGHIJKLMNOPQRSTUVWXYZ_abcdefghijklmnopqrstuvwxyz".
Proof. reflexivity. Qed.

(** The white space below code point 256. *)
Example is_space_latin1 :
  List.filter is_space (map N.of_nat (seq 0 256))
  = [9; 10; 11; 12; 13; 28; 29; 30; 31; 32; 133; 160].
Proof. reflexivity. Qed.

(** The search is on the stripped input, and the identifier is cut at
    eleven characters. *)
Example validate_demo :
  validate_youtube_url
    (VStr (str "  https://m.youtube.com/watch?v=dQw4w9WgXcQ123&t=42s "))
  = ([ReSearch host_pattern
        (str "https://m.youtube.com/watch?v=dQw4w9WgXcQ123&t=42s");
      ReSearch (Cat (NonCap (Lit (str "youtube.com/watch?v=")))
                    (Group (Rep 11 (CharSet id_chars))))
        (str "https://m.youtube.com/watch?v=dQw4w9WgXcQ123&t=42s")],
     Returned (Validated (str "video") (Some (str "dQw4w9WgXcQ"))
                 (str "https://www.youtube.com/watch?v=dQw4w9WgXcQ"))).
Proof. reflexivity. Qed.

(** A URL with a host marker and no identifier. *)
Example validate_format_demo :
  result (validate_youtube_url (VStr (str "https://www.youtube.com/feed")))
  = Raised (Exn ValueError (str "Invalid YouTube URL format")).
Proof. reflexivity. Qed.

(** ** Facts about strings *)

Section StringFacts.

Implicit Types l s t p q : pystr.

Lemma eqb_eq s t : PyStr.eqb s t = true <-> s = t.
Proof.
  revert t. induction s as [|c s IH]; intros [|d t]; simpl;
    try (split; [discriminate | congruence]); [tauto|].
  rewrite andb_true_iff, N.eqb_eq, IH. split.
  - intros [-> ->]. reflexivity.
  - intros [= -> ->]. tauto.
Qed.

Lemma eqb_refl s : PyStr.eqb s s = true.
Proof. apply eqb_eq. reflexivity. Qed.

Lemma strip_prefix_Some l s t : strip_prefix l s = Some t <-> s = l ++ t.
Proof.
  revert s. induction l as [|c l IH]; intros s; simpl.
  - split; [intros [= ->] | intros ->]; reflexivity.
  - destruct s as [|d s]; [split; discriminate|].
    destruct (N.eqb_spec c d) as [->|Hne].
    + rewrite IH. split; [intros -> | intros [= ->]]; reflexivity.
    + split; [discriminate | intros [= -> _]; contradiction].
Qed.

Lemma strip_prefix_app l s : strip_prefix l (l ++ s) = Some s.
Proof. apply strip_prefix_Some. reflexivity. Qed.

(** [contains] is the substring relation. *)
Lemma contains_spec l s :
  contains l s = true <-> exists a b, s = a ++ l ++ b.
Proof.
  induction s as [|c s IH]; simpl.
  - destruct (strip_prefix l []) as [t|] eqn:E.
    + apply strip_prefix_Some in E. split; [|reflexivity].
      intros _. exists [], t. exact E.
    + split; [discriminate|]. intros (a & b & H).
      destruct a; [|discriminate]. simpl in H.
      apply strip_prefix_Some in H. congruence.
  - destruct (strip_prefix l (c :: s)) as [t|] eqn:E.
    + apply strip_prefix_Some in E. split; [|reflexivity].
      intros _. exists [], t. exact E.
    + rewrite IH. split.
      * intros (a & b & ->). exists (c :: a), b. reflexivity.
      * intros (a & b & H). destruct a as [|c' a]; simpl in H.
        -- apply strip_prefix_Some in H. congruence.
        -- injection H as -> ->. exists a, b. reflexivity.
Qed.

Lemma contains_nonempty l s : l <> [] -> contains l s = true -> s <> [].
Proof.
  intros Hl H ->. apply contains_spec in H as (a & b & H).
  destruct a; [|discriminate]. destruct l; [congruence | discriminate].
Qed.

(** A substring of a part is a substring of the whole. *)
Lemma contains_middle l p s q :
  contains l s = true -> contains l (p ++ s ++ q) = true.
Proof.
  rewrite !contains_spec. intros (a & b & ->).
  exists (p ++ a), (b ++ q). rewrite <- !app_assoc. reflexivity.
Qed.

(** A substring that begins with [l] contains [l]. *)
Lemma contains_prefix_of l l' s :
  contains (l ++ l') s = true -> contains l s = true.
Proof.
  rewrite !contains_spec. intros (a & b & ->).
  exists a, (l' ++ b). rewrite <- app_assoc. reflexivity.
Qed.

Lemma lstrip_suffix s : exists p, s = p ++ lstrip s.
Proof.
  induction s as [|c s [p IH]]; simpl; [exists []; reflexivity|].
  destruct (is_space c).
  - exists (c :: p). simpl. congruence.
  - exists []. reflexivity.
Qed.

Lemma rstrip_prefix s : exists q, s = rstrip s ++ q.
Proof.
  induction s as [|c s [q IH]]; simpl; [exists []; reflexivity|].
  destruct (rstrip s) as [|d t] eqn:E.
  - destruct (is_space c).
    + exists (c :: s). reflexivity.
    + exists s. reflexivity.
  - exists q. simpl. f_equal. exact IH.
Qed.

(** Stripping removes characters only: what the stripped string
    contains, the string contains. *)
Lemma contains_strip l s :
  contains l (strip s) = true -> contains l s = true.
Proof.
  intros H. unfold strip in H.
  destruct (lstrip_suffix s) as [p Hp].
  destruct (rstrip_prefix (lstrip s)) as [q Hq].
  rewrite Hp, Hq. apply contains_middle. exact H.
Qed.

(** A string that ends in characters that are not white space keeps
    its end. *)
Lemma rstrip_keep s t :
  t <> [] -> forallb (fun c => negb (is_space c)) t = true ->
  rstrip (s ++ t) = s ++ t.
Proof.
  intros Ht Hall.
  assert (Hbase : rstrip t = t).
  { clear Ht. induction t as [|c t IH]; [reflexivity|].
    simpl in Hall. apply andb_true_iff in Hall as [Hc Hall].
    simpl. rewrite (IH Hall).
    destruct t; [|reflexivity].
    apply negb_true_iff in Hc. rewrite Hc. reflexivity. }
  induction s as [|c s IH]; simpl; [exact Hbase|].
  rewrite IH. destruct (s ++ t) eqn:E; [|reflexivity].
  apply app_eq_nil in E as [_ ->]. congruence.
Qed.

(** A string that begins and ends with characters that are not white
    space is its own stripped form. *)
Lemma strip_id c s t :
  is_space c = false -> t <> [] ->
  forallb (fun c => negb (is_space c)) t = true ->
  strip (c :: s ++ t) = c :: s ++ t.
Proof.
  intros Hc Ht Hall. unfold strip. simpl. rewrite Hc.
  apply (rstrip_keep (c :: s)); assumption.
Qed.

Lemma lstrip_app_keep a c w :
  is_space c = false -> lstrip (a ++ c :: w) = lstrip a ++ c :: w.
Proof.
  intros Hc. induction a as [|d a IH]; simpl.
  - rewrite Hc. reflexivity.
  - destruct (is_space d); [exact IH | reflexivity].
Qed.

Lemma rstrip_app_keep s t r :
  t <> [] -> forallb (fun c => negb (is_space c)) t = true ->
  rstrip (s ++ t ++ r) = s ++ t ++ rstrip r.
Proof.
  intros Ht Hall.
  assert (Hbase : rstrip (t ++ r) = t ++ rstrip r).
  { induction t as [|c t IH]; [congruence|].
    simpl in Hall. apply andb_true_iff in Hall as [Hc Hall].
    apply negb_true_iff in Hc. simpl. destruct t as [|d t].
    - simpl. rewrite Hc. destruct (rstrip r); reflexivity.
    - rewrite IH by (assumption || discriminate). reflexivity. }
  induction s as [|c s IH]; simpl; [exact Hbase|].
  rewrite IH. destruct s; [destruct t; [congruence|]|]; reflexivity.
Qed.

(** Stripping leaves alone a stretch without white space, wherever it
    lies in the string. *)
Lemma strip_app_keep a t r :
  t <> [] -> forallb (fun c => negb (is_space c)) t = true ->
  strip (a ++ t ++ r) = lstrip a ++ t ++ rstrip r.
Proof.
  intros Ht Hall. unfold strip. destruct t as [|c t]; [congruence|].
  pose proof Hall as Hall'. simpl in Hall'.
  apply andb_true_iff in Hall' as [Hc _]. apply negb_true_iff in Hc.
  change (a ++ (c :: t) ++ r) with (a ++ c :: (t ++ r)).
  rewrite lstrip_app_keep by exact Hc.
  apply (rstrip_app_keep (lstrip a) (c :: t) r); assumption.
Qed.

End StringFacts.

(** ** Facts about the matcher *)

Section RegexFacts.

Implicit Types (r : regex) (l s t p : pystr) (cl : list set_item).

Lemma search_here r s m : match_here r s = Some m -> search r s = Some m.
Proof. intros H. destruct s; simpl; rewrite H; reflexivity. Qed.

Lemma search_skip r c s :
  match_here r (c :: s) = None -> search r (c :: s) = search r s.
Proof. intros H. simpl. rewrite H. reflexivity. Qed.

(** A pattern that begins with a literal matches only where the
    literal occurs. *)
Lemma search_lit_None l r s :
  contains l s = false -> search (Cat (NonCap (Lit l)) r) s = None.
Proof.
  induction s as [|c s IH]; simpl; unfold match_here; simpl;
    destruct (strip_prefix l _); try discriminate; auto.
Qed.

Lemma search_lit_contains l r s m :
  search (Cat (NonCap (Lit l)) r) s = Some m -> contains l s = true.
Proof.
  intros H. destruct (contains l s) eqn:E; [reflexivity|].
  rewrite (search_lit_None _ r _ E) in H. discriminate.
Qed.

(** [(a|b)] is found exactly in the strings that contain [a] or [b]. *)
Lemma search_alt_lits_None a b s :
  search (Group (Alt (Lit a) (Lit b))) s = None
  <-> contains a s = false /\ contains b s = false.
Proof.
  induction s as [|c s IH]; simpl; unfold match_here; simpl.
  - destruct (strip_prefix a []), (strip_prefix b []); simpl;
      intuition discriminate.
  - destruct (strip_prefix a (c :: s)), (strip_prefix b (c :: s)); simpl;
      intuition discriminate.
Qed.

Lemma search_alt_lits_Some a b s :
  contains a s || contains b s = true ->
  exists m, search (Group (Alt (Lit a) (Lit b))) s = Some m.
Proof.
  intros H. destruct (search _ s) as [m|] eqn:E; [eauto|].
  apply search_alt_lits_None in E as [Ha Hb].
  rewrite Ha, Hb in H. discriminate.
Qed.

(** [[...]{n}] consumes [n] characters of the set. *)
Lemma times_charset cl (k : cont) id rest g :
  forallb (in_set cl) id = true ->
  times (match_at (CharSet cl)) (length id) (id ++ rest) g k = k rest g.
Proof.
  induction id as [|c id IH]; simpl; [reflexivity|].
  intros H. apply andb_true_iff in H as [-> H]. auto.
Qed.

(** Greedy repetition of a set takes the whole run of characters of
    the set when the rest of the pattern accepts what follows. *)
Lemma star_charset cl (k : cont) id rest g fuel m :
  (length id <= fuel)%nat ->
  forallb (in_set cl) id = true ->
  match rest with [] => true | c :: _ => negb (in_set cl c) end = true ->
  k rest g = Some m ->
  star (match_at (CharSet cl)) fuel (id ++ rest) g k = Some m.
Proof.
  intros Hlen Hid Hrest Hk. revert fuel Hlen.
  induction id as [|c id IH]; intros fuel Hlen; simpl.
  - destruct fuel as [|fuel]; simpl; [exact Hk|].
    destruct rest as [|c rest]; [exact Hk|].
    apply negb_true_iff in Hrest. rewrite Hrest. exact Hk.
  - simpl in Hid. apply andb_true_iff in Hid as [Hc Hid].
    destruct fuel as [|fuel]; simpl in *; [lia|].
    rewrite Hc.
    replace (length (id ++ rest) <? S (length (id ++ rest)))%nat
      with true by (symmetry; apply Nat.ltb_lt; lia).
    rewrite IH by (assumption || lia). reflexivity.
Qed.

Lemma match_at_rep_charset cl (k : cont) id rest g :
  forallb (in_set cl) id = true ->
  match_at (Rep (length id) (CharSet cl)) (id ++ rest) g k = k rest g.
Proof. apply times_charset. Qed.

Lemma match_at_plus_charset cl (k : cont) id rest g m :
  id <> [] ->
  forallb (in_set cl) id = true ->
  match rest with [] => true | c :: _ => negb (in_set cl c) end = true ->
  k rest g = Some m ->
  match_at (Plus (CharSet cl)) (id ++ rest) g k = Some m.
Proof.
  intros Hne Hid Hrest Hk. destruct id as [|c id]; [congruence|].
  simpl in Hid. apply andb_true_iff in Hid as [Hc Hid].
  change (match_at (Plus (CharSet cl)) ((c :: id) ++ rest) g k)
    with (if in_set cl c
          then star (match_at (CharSet cl)) (length (id ++ rest))
                    (id ++ rest) g k
          else None).
  rewrite Hc. apply star_charset; try assumption.
  rewrite length_app. lia.
Qed.

(** How a pattern [(?:l)(r)] is matched: the literal, then [r], whose
    text becomes group 1. *)
Lemma match_here_lit_group l r s :
  match_here (Cat (NonCap (Lit l)) (Group r)) s =
  match strip_prefix l s with
  | Some s' =>
      match_at r s' None
        (fun s'' _ => Some (Some (take (length s' - length s'') s')))
  | None => None
  end.
Proof. reflexivity. Qed.

Lemma take_consumed (id rest : pystr) :
  take (length (id ++ rest) - length rest) (id ++ rest) = id.
Proof.
  rewrite length_app.
  replace (length id + length rest - length rest)%nat with (length id)
    by lia.
  apply take_app_length.
Qed.

(** [(?:l)([...]{n})] at a place where [l] and [n] characters of the
    set follow: group 1 is those characters. *)
Lemma match_lit_rep l cl id rest :
  forallb (in_set cl) id = true ->
  match_here (Cat (NonCap (Lit l)) (Group (Rep (length id) (CharSet cl))))
             (l ++ id ++ rest) = Some (Some id).
Proof.
  intros H.
  rewrite match_here_lit_group, strip_prefix_app, match_at_rep_charset
    by exact H.
  rewrite take_consumed. reflexivity.
Qed.

(** [(?:l)([...]+)] at a place where [l] and a run of characters of the
    set follow: group 1 is the whole run. *)
Lemma match_lit_plus l cl id rest :
  id <> [] ->
  forallb (in_set cl) id = true ->
  match rest with [] => true | c :: _ => negb (in_set cl c) end = true ->
  match_here (Cat (NonCap (Lit l)) (Group (Plus (CharSet cl))))
             (l ++ id ++ rest) = Some (Some id).
Proof.
  intros Hne Hid Hrest.
  rewrite match_here_lit_group, strip_prefix_app.
  apply match_at_plus_charset; try assumption.
  rewrite take_consumed. reflexivity.
Qed.

(** A literal that ends in a character outside the set cannot reach
    into a run of characters of the set. *)
Lemma strip_prefix_not_into_run cl l0 x p t (r : pystr) :
  in_set cl x = false -> forallb (in_set cl) t = true ->
  strip_prefix (l0 ++ [x]) (p ++ t) = Some r ->
  is_Some (strip_prefix (l0 ++ [x]) p).
Proof.
  intros Hx. revert p t.
  induction l0 as [|c l0 IH]; intros p t Ht H.
  - destruct p as [|d p]; simpl in *.
    + destruct t as [|d t]; [discriminate|]. simpl in Ht.
      apply andb_true_iff in Ht as [Hd _].
      destruct (N.eqb_spec x d) as [->|]; [congruence | discriminate].
    + destruct (x =? d); [eauto | discriminate].
  - destruct p as [|d p]; simpl in *.
    + destruct t as [|d t]; [discriminate|]. simpl in Ht.
      apply andb_true_iff in Ht as [_ Ht].
      destruct (c =? d); [|discriminate].
      destruct (IH [] t Ht H) as [r' Hr'].
      destruct l0; discriminate.
    + destruct (c =? d); [eauto | discriminate].
Qed.

Lemma contains_not_into_run cl l0 x p t :
  in_set cl x = false -> forallb (in_set cl) t = true ->
  contains (l0 ++ [x]) p = false ->
  contains (l0 ++ [x]) (p ++ t) = false.
Proof.
  intros Hx Ht. induction p as [|c p IH].
  - intros _. simpl. induction t as [|d t IH]; simpl.
    + destruct l0; reflexivity.
    + destruct (strip_prefix (l0 ++ [x]) (d :: t)) as [r|] eqn:E.
      * destruct (strip_prefix_not_into_run cl l0 x [] (d :: t) r Hx Ht E)
          as [r' Hr']. destruct l0; discriminate.
      * simpl in Ht. apply andb_true_iff in Ht as [_ Ht]. auto.
  - simpl. destruct (strip_prefix (l0 ++ [x]) (c :: p)) eqn:E1;
      [discriminate|]. intros Hp.
    destruct (strip_prefix (l0 ++ [x]) (c :: p ++ t)) as [r|] eqn:E2;
      [|auto].
    destruct (strip_prefix_not_into_run cl l0 x (c :: p) t r Hx Ht E2)
      as [r' Hr']. congruence.
Qed.

Lemma times_charset_inv cl (k : cont) n s g m :
  times (match_at (CharSet cl)) n s g k = Some m ->
  exists id rest,
    s = id ++ rest /\ length id = n /\ forallb (in_set cl) id = true
    /\ k rest g = Some m.
Proof.
  revert s g. induction n as [|n IH]; intros s g H; simpl in H.
  - exists [], s. auto.
  - destruct s as [|c s]; [discriminate|].
    destruct (in_set cl c) eqn:Hc; [|discriminate].
    destruct (IH _ _ H) as (id & rest & -> & <- & Hid & Hk).
    exists (c :: id), rest. simpl. rewrite Hc. auto.
Qed.

(** Where [(?:l)([...]{n})] matches, the literal and [n] characters of
    the set stand, and group 1 is those characters. *)
Lemma match_lit_rep_inv l cl n t m :
  match_here (Cat (NonCap (Lit l)) (Group (Rep n (CharSet cl)))) t = Some m ->
  exists id rest,
    t = l ++ id ++ rest /\ length id = n /\ forallb (in_set cl) id = true
    /\ m = Some id.
Proof.
  rewrite match_here_lit_group.
  destruct (strip_prefix l t) as [s|] eqn:E; [|discriminate].
  apply strip_prefix_Some in E as ->. intros H.
  apply times_charset_inv in H as (id & rest & -> & Hlen & Hid & Hk).
  exists id, rest. rewrite take_consumed in Hk.
  repeat split; congruence.
Qed.

(** A successful search matched at some position. *)
Lemma search_inv r s m :
  search r s = Some m -> exists a t, s = a ++ t /\ match_here r t = Some m.
Proof.
  induction s as [|c s IH]; simpl.
  - destruct (match_here r []) eqn:E; [|discriminate].
    intros [= <-]. exists [], []. auto.
  - destruct (match_here r (c :: s)) eqn:E.
    + intros [= <-]. exists [], (c :: s). auto.
    + intros H. destruct (IH H) as (a & t & -> & Ht).
      exists (c :: a), t. auto.
Qed.

(** A match somewhere makes the search succeed (possibly earlier). *)
Lemma search_found r a t m :
  match_here r t = Some m -> search r (a ++ t) <> None.
Proof.
  intros H. induction a as [|c a IH]; simpl.
  - rewrite (search_here _ _ _ H). discriminate.
  - destruct (match_here r (c :: a ++ t)); [discriminate | exact IH].
Qed.

End RegexFacts.

(** ** The computations, seen through their results and traces *)

Section MonadFacts.

Context {A B : Type}.

Lemma result_bind (m : M A) (f : A -> M B) :
  result (bind m f) =
  match result m with
  | Returned a => result (f a)
  | Raised e => Raised e
  end.
Proof.
  destruct m as [t [a|e]]; simpl; [|reflexivity].
  destruct (f a); reflexivity.
Qed.

Lemma trace_bind (m : M A) (f : A -> M B) :
  trace (bind m f) =
  match result m with
  | Returned a => trace m ++ trace (f a)
  | Raised e => trace m
  end.
Proof.
  destruct m as [t [a|e]]; simpl; [|reflexivity].
  destruct (f a); reflexivity.
Qed.

Lemma result_try_except (m : M A) (h : exn -> M A) :
  result (try_except m h) =
  match result m with
  | Returned a => Returned a
  | Raised e => result (h e)
  end.
Proof.
  destruct m as [t [a|e]]; simpl; [reflexivity|].
  destruct (h e); reflexivity.
Qed.

Lemma trace_try_except (m : M A) (h : exn -> M A) :
  trace (try_except m h) =
  match result m with
  | Returned a => trace m
  | Raised e => trace m ++ trace (h e)
  end.
Proof.
  destruct m as [t [a|e]]; simpl; [reflexivity|].
  destruct (h e); reflexivity.
Qed.

End MonadFacts.

(** ** The validator *)

Section Validator.

Implicit Types (u s id : pystr) (p : regex).

Lemma result_first_video ps u :
  result (first_video ps u) = Returned (video_of <$> first_match ps u).
Proof.
  induction ps as [|p ps IH]; simpl; [reflexivity|].
  unfold re_search, emit, ret, bind.
  destruct (search p u) as [m|]; [reflexivity|].
  unfold result in IH. destruct (first_video ps u). simpl in *. exact IH.
Qed.

Lemma trace_first_video ps u :
  trace (first_video ps u) = map (fun p => ReSearch p u) (tried ps u).
Proof.
  induction ps as [|p ps IH]; simpl; [reflexivity|].
  unfold re_search, emit, ret, bind, matches.
  destruct (search p u) as [m|]; [reflexivity|].
  unfold trace in IH. destruct (first_video ps u). simpl in *.
  f_equal. exact IH.
Qed.

Lemma result_re_search p u : result (re_search p u) = Returned (search p u).
Proof. reflexivity. Qed.

Lemma trace_re_search p u : trace (re_search p u) = [ReSearch p u].
Proof. reflexivity. Qed.

(** What [validate_youtube_url] answers on a string, in terms of the
    searches alone. *)
Lemma result_validate u :
  result (validate_youtube_url (VStr u)) =
  match strip u with
  | [] => Raised (Exn ValueError (str "URL must be a non-empty string"))
  | _ :: _ =>
      match search host_pattern (strip u) with
      | None => Raised (Exn ValueError (str "Not a valid YouTube URL"))
      | Some _ =>
          match first_match video_patterns (strip u) with
          | Some g => Returned (video_of g)
          | None =>
              match search playlist_pattern (strip u) with
              | Some g => Returned (playlist_of g)
              | None =>
                  Raised (Exn ValueError (str "Invalid YouTube URL format"))
              end
          end
      end
  end.
Proof.
  unfold validate_youtube_url. destruct (strip u) as [|c s]; [reflexivity|].
  rewrite result_bind, result_re_search.
  destruct (search host_pattern (c :: s)); [|reflexivity].
  rewrite result_bind, result_first_video.
  destruct (first_match video_patterns (c :: s)); [reflexivity|].
  cbn [fmap option_fmap option_map].
  rewrite result_bind, result_re_search.
  destruct (search playlist_pattern (c :: s)); reflexivity.
Qed.

(** The searches [validate_youtube_url] performs, in order. *)
Lemma trace_validate u :
  trace (validate_youtube_url (VStr u)) =
  match strip u with
  | [] => []
  | _ :: _ =>
      ReSearch host_pattern (strip u) ::
      match search host_pattern (strip u) with
      | None => []
      | Some _ =>
          map (fun p => ReSearch p (strip u)) (tried video_patterns (strip u))
          ++ match first_match video_patterns (strip u) with
             | Some _ => []
             | None => [ReSearch playlist_pattern (strip u)]
             end
      end
  end.
Proof.
  unfold validate_youtube_url. destruct (strip u) as [|c s]; [reflexivity|].
  rewrite trace_bind, result_re_search, trace_re_search.
  destruct (search host_pattern (c :: s)); [|reflexivity].
  cbn [app]. f_equal.
  rewrite trace_bind, result_first_video, trace_first_video.
  destruct (first_match video_patterns (c :: s));
    cbn [fmap option_fmap option_map].
  - reflexivity.
  - f_equal. rewrite trace_bind, result_re_search, trace_re_search.
    destruct (search playlist_pattern (c :: s)); reflexivity.
Qed.

Lemma tried_incl ps u p : In p (tried ps u) -> In p ps.
Proof.
  induction ps as [|q ps IH]; simpl; [tauto|].
  intros [H|H]; [auto|]. destruct (matches q u); [contradiction | auto].
Qed.

End Validator.

(** ** Searching URLs of the recognised shapes *)

Section UrlShapes.

Implicit Types (u s id pre : pystr) (p : regex).

Lemma id_char_not_space c : in_set id_chars c = true -> is_space c = false.
Proof.
  unfold in_set, id_chars, is_space. cbn [existsb in_item].
  rewrite !orb_true_iff, !orb_false_iff, !andb_true_iff, !andb_false_iff,
    !N.leb_le, !N.leb_gt, !N.eqb_eq, !N.eqb_neq.
  lia.
Qed.

Lemma is_id_no_space id :
  is_id id = true -> forallb (fun c => negb (is_space c)) id = true.
Proof.
  unfold is_id. rewrite !forallb_forall. intros H c Hc.
  rewrite (id_char_not_space c (H c Hc)). reflexivity.
Qed.

(** A URL that ends in an identifier and does not begin with white
    space is left as it is by [strip]. *)
Lemma strip_url c pre id :
  is_space c = false -> id <> [] -> is_id id = true ->
  strip ((c :: pre) ++ id) = (c :: pre) ++ id.
Proof.
  intros Hc Hne Hid. apply strip_id; auto using is_id_no_space.
Qed.

(** A pattern that begins with a literal is not found inside a prefix
    that lacks the literal's first character. *)
Lemma search_skip_prefix x l r pre s :
  forallb (fun c => negb (x =? c)) pre = true ->
  search (Cat (NonCap (Lit (x :: l))) r) (pre ++ s) =
  search (Cat (NonCap (Lit (x :: l))) r) s.
Proof.
  induction pre as [|c pre IH]; [reflexivity|]. simpl forallb.
  intros H. apply andb_true_iff in H as [Hc H].
  apply negb_true_iff in Hc.
  change ((c :: pre) ++ s) with (c :: pre ++ s).
  rewrite search_skip; [auto|].
  unfold match_here. simpl. rewrite Hc. reflexivity.
Qed.

(** The video pattern with literal [x :: l] finds the eleven characters
    that follow the literal. *)
Lemma search_video_pattern x l pre id :
  forallb (fun c => negb (x =? c)) pre = true ->
  length id = 11%nat -> is_id id = true ->
  search (Cat (NonCap (Lit (x :: l))) (Group (Rep 11 (CharSet id_chars))))
         (pre ++ (x :: l) ++ id) = Some (Some id).
Proof.
  intros Hpre Hlen Hid. rewrite search_skip_prefix by exact Hpre.
  apply search_here. rewrite <- Hlen.
  replace ((x :: l) ++ id) with ((x :: l) ++ id ++ [])
    by (rewrite app_nil_r; reflexivity).
  apply match_lit_rep. exact Hid.
Qed.

(** The playlist pattern finds the identifier that ends the URL. *)
Lemma search_playlist_pattern pre id :
  forallb (fun c => negb (121 =? c)) pre = true ->
  id <> [] -> is_id id = true ->
  search playlist_pattern (pre ++ str "youtube.com/playlist?list=" ++ id)
  = Some (Some id).
Proof.
  intros Hpre Hne Hid. unfold playlist_pattern.
  change (str "youtube.com/playlist?list=")
    with (121 :: str "outube.com/playlist?list=").
  rewrite search_skip_prefix by exact Hpre.
  apply search_here.
  replace ((121 :: str "outube.com/playlist?list=") ++ id)
    with ((121 :: str "outube.com/playlist?list=") ++ id ++ [])
    by (rewrite app_nil_r; reflexivity).
  apply match_lit_plus; auto.
Qed.

(** A pattern whose literal ends outside [[A-Za-z0-9_-]] is not found
    in a URL that lacks the literal before its identifier. *)
Lemma search_absent l0 x r pre id :
  in_set id_chars x = false -> is_id id = true ->
  contains (l0 ++ [x]) pre = false ->
  search (Cat (NonCap (Lit (l0 ++ [x]))) r) (pre ++ id) = None.
Proof.
  intros Hx Hid Hpre. apply search_lit_None.
  apply (contains_not_into_run id_chars); assumption.
Qed.

Lemma validate_video u g :
  strip u <> [] -> search host_pattern (strip u) <> None ->
  first_match video_patterns (strip u) = Some g ->
  result (validate_youtube_url (VStr u)) = Returned (video_of g).
Proof.
  intros Hne Hhost Hv. rewrite result_validate, Hv.
  destruct (strip u); [congruence|].
  destruct (search host_pattern _); [reflexivity | congruence].
Qed.

Lemma validate_playlist u g :
  strip u <> [] -> search host_pattern (strip u) <> None ->
  first_match video_patterns (strip u) = None ->
  search playlist_pattern (strip u) = Some g ->
  result (validate_youtube_url (VStr u)) = Returned (playlist_of g).
Proof.
  intros Hne Hhost Hv Hp. rewrite result_validate, Hv, Hp.
  destruct (strip u); [congruence|].
  destruct (search host_pattern _); [reflexivity | congruence].
Qed.

Lemma host_found l u :
  l = str "youtube.com" \/ l = str "youtu.be" ->
  contains l u = true -> search host_pattern u <> None.
Proof.
  intros Hl Hc.
  destruct (search_alt_lits_Some (str "youtube.com") (str "youtu.be") u)
    as [m Hm].
  - destruct Hl as [-> | ->]; rewrite Hc; [reflexivity | apply orb_true_r].
  - unfold host_pattern. rewrite Hm. discriminate.
Qed.

End UrlShapes.

(** ** Properties of the specification: the validator *)

Section ValidatorProperties.

Implicit Types (u s id : pystr).

Lemma length_11_nonempty id : length id = 11%nat -> id <> [].
Proof. intros H ->. discriminate. Qed.

Lemma validate_watch_url id :
  length id = 11%nat -> is_id id = true ->
  result (validate_youtube_url (VStr (watch_url id)))
  = Returned (Validated (str "video") (Some id) (watch_url id)).
Proof.
  intros Hlen Hid. pose proof (length_11_nonempty id Hlen) as Hne.
  assert (Hs : strip (watch_url id) = watch_url id)
    by (apply (strip_url 104 (str "ttps://www.youtube.com/watch?v="));
        auto).
  apply (validate_video _ (Some id)); rewrite Hs.
  - discriminate.
  - apply (host_found (str "youtube.com")); [auto|].
    apply contains_spec.
    exists (str "https://www."), (str "/watch?v=" ++ id). reflexivity.
  - cbn [first_match video_patterns].
    change (watch_url id)
      with (str "https://www." ++ (121 :: str "outube.com/watch?v=") ++ id).
    change (str "youtube.com/watch?v=")
      with (121 :: str "outube.com/watch?v=").
    rewrite search_video_pattern by auto. reflexivity.
Qed.

Lemma validate_short_url id :
  length id = 11%nat -> is_id id = true ->
  result (validate_youtube_url (VStr (short_url id)))
  = Returned (Validated (str "video") (Some id) (watch_url id)).
Proof.
  intros Hlen Hid. pose proof (length_11_nonempty id Hlen) as Hne.
  assert (Hs : strip (short_url id) = short_url id)
    by (apply (strip_url 104 (str "ttps://youtu.be/")); auto).
  apply (validate_video _ (Some id)); rewrite Hs.
  - discriminate.
  - apply (host_found (str "youtu.be")); [auto|].
    apply contains_spec.
    exists (str "https://"), (str "/" ++ id). reflexivity.
  - cbn [first_match video_patterns].
    rewrite (search_absent (str "youtube.com/watch?v") 61 _
               (str "https://youtu.be/") id) by auto.
    change (short_url id)
      with (str "https://" ++ (121 :: str "outu.be/") ++ id).
    change (str "youtu.be/") with (121 :: str "outu.be/").
    rewrite search_video_pattern by auto. reflexivity.
Qed.

Lemma validate_shorts_url id :
  length id = 11%nat -> is_id id = true ->
  result (validate_youtube_url (VStr (shorts_url id)))
  = Returned (Validated (str "video") (Some id) (watch_url id)).
Proof.
  intros Hlen Hid. pose proof (length_11_nonempty id Hlen) as Hne.
  assert (Hs : strip (shorts_url id) = shorts_url id)
    by (apply (strip_url 104 (str "ttps://www.youtube.com/shorts/"));
        auto).
  apply (validate_video _ (Some id)); rewrite Hs.
  - discriminate.
  - apply (host_found (str "youtube.com")); [auto|].
    apply contains_spec.
    exists (str "https://www."), (str "/shorts/" ++ id). reflexivity.
  - cbn [first_match video_patterns].
    rewrite (search_absent (str "youtube.com/watch?v") 61 _
               (str "https://www.youtube.com/shorts/") id) by auto.
    rewrite (search_absent (str "youtu.be") 47 _
               (str "https://www.youtube.com/shorts/") id) by auto.
    change (shorts_url id)
      with (str "https://www." ++ (121 :: str "outube.com/shorts/") ++ id).
    change (str "youtube.com/shorts/")
      with (121 :: str "outube.com/shorts/").
    rewrite search_video_pattern by auto. reflexivity.
Qed.

(** C3. For every 11-character identifier over [[A-Za-z0-9_-]], the
    watch URL, the [youtu.be] URL and the shorts URL of that identifier
    all validate to type [video], that identifier, and the one canonical
    URL [https://www.youtube.com/watch?v=<id>]. *)
Theorem video_urls_canonical id :
  length id = 11%nat -> is_id id = true ->
  let v := Validated (str "video") (Some id)
                     (str "https://www.youtube.com/watch?v=" ++ id) in
  result (validate_youtube_url (VStr (watch_url id))) = Returned v
  /\ result (validate_youtube_url (VStr (short_url id))) = Returned v
  /\ result (validate_youtube_url (VStr (shorts_url id))) = Returned v.
Proof.
  intros Hlen Hid v. subst v.
  auto using validate_watch_url, validate_short_url, validate_shorts_url.
Qed.

Lemma video_urls_canonical_witness :
  let id := str "dQw4w9WgXcQ" in
  let v := Validated (str "video") (Some id)
                     (str "https://www.youtube.com/watch?v=dQw4w9WgXcQ") in
  length id = 11%nat /\ is_id id = true /\
  result (validate_youtube_url
            (VStr (str "https://www.youtube.com/watch?v=dQw4w9WgXcQ")))
  = Returned v
  /\ result (validate_youtube_url (VStr (str "https://youtu.be/dQw4w9WgXcQ")))
     = Returned v
  /\ result (validate_youtube_url
               (VStr (str "https://www.youtube.com/shorts/dQw4w9WgXcQ")))
     = Returned v.
Proof.
  split; [reflexivity|]. split; [reflexivity|].
  exact (video_urls_canonical (str "dQw4w9WgXcQ") eq_refl eq_refl).
Defined.

(** *** Playlists *)

Lemma first_match_None ps u :
  existsb (fun p => matches p u) ps = false -> first_match ps u = None.
Proof.
  induction ps as [|p ps IH]; simpl; [reflexivity|]. unfold matches at 1.
  destruct (search p u); [discriminate | exact IH].
Qed.

Lemma first_match_Some ps u :
  existsb (fun p => matches p u) ps = true ->
  exists p m, In p ps /\ search p u = Some m /\ first_match ps u = Some m.
Proof.
  induction ps as [|p ps IH]; simpl; [discriminate|]. unfold matches at 1.
  destruct (search p u) as [m|] eqn:E.
  - intros _. exists p, m. auto.
  - intros H. destruct (IH H) as (q & m & Hq & Hs & Hf).
    exists q, m. auto.
Qed.

(** No playlist URL matches a video-shape pattern. *)
Lemma playlist_url_no_video_match id :
  is_id id = true ->
  existsb (fun p => matches p (playlist_url id)) video_patterns = false.
Proof.
  intros Hid. cbn [existsb video_patterns]. unfold matches.
  rewrite (search_absent (str "youtube.com/watch?v") 61 _
             (str "https://www.youtube.com/playlist?list=") id) by auto.
  rewrite (search_absent (str "youtu.be") 47 _
             (str "https://www.youtube.com/playlist?list=") id) by auto.
  rewrite (search_absent (str "youtube.com/shorts") 47 _
             (str "https://www.youtube.com/playlist?list=") id) by auto.
  reflexivity.
Qed.

(** C4. A playlist URL [https://www.youtube.com/playlist?list=<id>],
    with [id] non-empty over [[A-Za-z0-9_-]], that matches no video-shape
    pattern validates to type [playlist], that identifier, and the
    canonical URL [https://www.youtube.com/playlist?list=<id>]. *)
Theorem playlist_url_canonical id :
  id <> [] -> is_id id = true ->
  existsb (fun p => matches p (playlist_url id)) video_patterns = false ->
  result (validate_youtube_url (VStr (playlist_url id)))
  = Returned (Validated (str "playlist") (Some id)
                (str "https://www.youtube.com/playlist?list=" ++ id)).
Proof.
  intros Hne Hid Hvideo.
  assert (Hs : strip (playlist_url id) = playlist_url id)
    by (apply (strip_url 104
                 (str "ttps://www.youtube.com/playlist?list="));
        auto).
  apply (validate_playlist _ (Some id)); rewrite Hs.
  - discriminate.
  - apply (host_found (str "youtube.com")); [auto|].
    apply contains_spec.
    exists (str "https://www."), (str "/playlist?list=" ++ id).
    reflexivity.
  - apply first_match_None. exact Hvideo.
  - apply (search_playlist_pattern (str "https://www.")); auto.
Qed.

Lemma playlist_url_canonical_witness :
  let id := str "PLx0sYbCqOb8TBPRdmBHs5Iftvv9TPboYG" in
  result (validate_youtube_url
            (VStr (str "https://www.youtube.com/playlist?list=PLx0sYbCqOb8TBPRdmBHs5Iftvv9TPboYG")))
  = Returned (Validated (str "playlist") (Some id)
                (str "https://www.youtube.com/playlist?list=PLx0sYbCqOb8TBPRdmBHs5Iftvv9TPboYG")).
Proof.
  apply (playlist_url_canonical
           (str "PLx0sYbCqOb8TBPRdmBHs5Iftvv9TPboYG"));
    [discriminate | reflexivity | vm_compute; reflexivity].
Defined.

(** *** Order of the patterns *)

(** The three video patterns have one shape: a literal that begins with
    a host marker and contains no white space, then eleven identifier
    characters as group 1. *)
Lemma video_pattern_shape p :
  In p video_patterns ->
  exists h tl,
    p = Cat (NonCap (Lit (h ++ tl))) (Group (Rep 11 (CharSet id_chars)))
    /\ (h = str "youtube.com" \/ h = str "youtu.be")
    /\ h <> []
    /\ forallb (fun c => negb (is_space c)) (h ++ tl) = true.
Proof.
  intros [<- | [<- | [<- | []]]].
  - exists (str "youtube.com"), (str "/watch?v=").
    repeat split; auto; discriminate.
  - exists (str "youtu.be"), (str "/"). repeat split; auto; discriminate.
  - exists (str "youtube.com"), (str "/shorts/").
    repeat split; auto; discriminate.
Qed.

(** A video pattern found in the raw input is found in the stripped
    input too: its match contains no white space. *)
Lemma video_match_strip p u :
  In p video_patterns -> matches p u = true -> matches p (strip u) = true.
Proof.
  intros Hp. destruct (video_pattern_shape p Hp)
    as (h & tl & -> & _ & Hh & Hl).
  unfold matches. destruct (search _ u) as [m|] eqn:E; [|discriminate].
  intros _. apply search_inv in E as (a & t & -> & Ht).
  apply match_lit_rep_inv in Ht as (id & rest & -> & Hlen & Hid & _).
  replace (a ++ (h ++ tl) ++ id ++ rest)
    with (a ++ ((h ++ tl) ++ id) ++ rest)
    by (rewrite <- !app_assoc; reflexivity).
  rewrite strip_app_keep.
  - rewrite <- (app_assoc (h ++ tl)).
    match goal with |- context [search ?r ?s] =>
      pose proof (search_found r (lstrip a)
                    ((h ++ tl) ++ id ++ rstrip rest) (Some id)) as Hf
    end.
    rewrite <- Hlen in Hf at 1.
    specialize (Hf (match_lit_rep _ _ _ _ Hid)).
    destruct (search _ _); [reflexivity | congruence].
  - destruct h; [congruence | discriminate].
  - rewrite forallb_app, Hl. apply is_id_no_space. exact Hid.
Qed.

(** What a successful search of a video pattern tells: group 1 is an
    identifier, and the host marker is there. *)
Lemma video_match_inv p u m :
  In p video_patterns -> search p u = Some m ->
  (exists id, m = Some id /\ length id = 11%nat /\ is_id id = true)
  /\ search host_pattern u <> None /\ u <> [].
Proof.
  intros Hp H. destruct (video_pattern_shape p Hp)
    as (h & tl & -> & Hhost & Hh & _).
  pose proof (search_lit_contains _ _ _ _ H) as Hc.
  apply contains_prefix_of in Hc.
  split; [|split].
  - apply search_inv in H as (a & t & -> & Ht).
    apply match_lit_rep_inv in Ht as (id & rest & -> & Hlen & Hid & ->).
    exists id. auto.
  - apply (host_found h); assumption.
  - apply (contains_nonempty h); assumption.
Qed.

Lemma playlist_not_video : ~ In playlist_pattern video_patterns.
Proof. intros [H | [H | [H | []]]]; discriminate. Qed.

(** C5. An input that matches a video-shape pattern and the playlist
    pattern validates to type [video]: the video patterns are searched
    first, the first that matches decides the identifier, and the
    playlist pattern is not searched at all. *)
Theorem video_before_playlist u :
  existsb (fun p => matches p u) video_patterns = true ->
  matches playlist_pattern u = true ->
  exists id,
    result (validate_youtube_url (VStr u))
    = Returned (Validated (str "video") (Some id)
                  (str "https://www.youtube.com/watch?v=" ++ id))
    /\ first_match video_patterns (strip u) = Some (Some id)
    /\ ~ In (ReSearch playlist_pattern (strip u))
           (trace (validate_youtube_url (VStr u))).
Proof.
  intros Hvideo _.
  assert (Hs : existsb (fun p => matches p (strip u)) video_patterns = true).
  { apply existsb_exists in Hvideo as (p & Hp & Hm).
    apply existsb_exists. exists p. auto using video_match_strip. }
  apply first_match_Some in Hs as (p & m & Hp & Hm & Hfirst).
  destruct (video_match_inv p _ m Hp Hm)
    as ((id & -> & Hlen & Hid) & Hhost & Hne).
  exists id. split; [|split].
  - apply (validate_video u (Some id)); assumption.
  - exact Hfirst.
  - rewrite trace_validate, Hfirst. destruct (strip u) as [|c s] eqn:E;
      [congruence|].
    destruct (search host_pattern (c :: s)); [|congruence].
    rewrite app_nil_r. intros [H | H]; [discriminate|].
    apply in_map_iff in H as (q & [= ->] & Hq).
    apply tried_incl in Hq. exact (playlist_not_video Hq).
Qed.

Lemma video_before_playlist_witness :
  exists id,
    result (validate_youtube_url
              (VStr (str "https://www.youtube.com/playlist?list=PL123&v=youtu.be/dQw4w9WgXcQ")))
    = Returned (Validated (str "video") (Some id)
                  (str "https://www.youtube.com/watch?v=" ++ id))
    /\ first_match video_patterns
         (strip (str "https://www.youtube.com/playlist?list=PL123&v=youtu.be/dQw4w9WgXcQ"))
       = Some (Some id)
    /\ ~ In (ReSearch playlist_pattern
              (strip (str "https://www.youtube.com/playlist?list=PL123&v=youtu.be/dQw4w9WgXcQ")))
           (trace (validate_youtube_url
              (VStr (str "https://www.youtube.com/playlist?list=PL123&v=youtu.be/dQw4w9WgXcQ")))).
Proof.
  apply video_before_playlist; vm_compute; reflexivity.
Defined.

(** *** Rejected inputs *)

(** C7. A URL that is not a string, or is empty once stripped of
    white space, is rejected with the non-empty-string error, and no
    pattern was searched before. *)
Theorem empty_or_non_string_rejected (url : pyval) :
  match url with VStr u => strip u = [] | _ => True end ->
  validate_youtube_url url
  = ([], Raised (Exn ValueError (str "URL must be a non-empty string"))).
Proof.
  destruct url as [| | | u | |]; try reflexivity.
  intros H. unfold validate_youtube_url. rewrite H. reflexivity.
Qed.

Lemma empty_or_non_string_rejected_witness :
  let err := Raised (Exn ValueError (str "URL must be a non-empty string")) in
  validate_youtube_url (VStr (str "")) = ([], err)
  /\ validate_youtube_url (VStr [32; 9; 10; 160; 8195]) = ([], err)
  /\ validate_youtube_url VNone = ([], err)
  /\ validate_youtube_url (VInt 42) = ([], err).
Proof.
  split; [|split; [|split]].
  - apply (empty_or_non_string_rejected (VStr (str ""))). reflexivity.
  - apply (empty_or_non_string_rejected (VStr [32; 9; 10; 160; 8195])).
    reflexivity.
  - apply (empty_or_non_string_rejected VNone). exact I.
  - apply (empty_or_non_string_rejected (VInt 42)). exact I.
Defined.

(** C6, as the code has it. A string that is not empty once stripped
    of white space and contains neither [youtube.com] nor [youtu.be] is
    rejected as not a YouTube URL; the host search is the only search
    made, no identifier pattern is tried. *)
Theorem no_host_marker_rejected u :
  strip u <> [] ->
  contains (str "youtube.com") u = false ->
  contains (str "youtu.be") u = false ->
  validate_youtube_url (VStr u)
  = ([ReSearch host_pattern (strip u)],
     Raised (Exn ValueError (str "Not a valid YouTube URL"))).
Proof.
  intros Hne Ha Hb.
  assert (Hhost : search host_pattern (strip u) = None).
  { apply search_alt_lits_None. split.
    - destruct (contains _ (strip u)) eqn:E; [|reflexivity].
      apply contains_strip in E. congruence.
    - destruct (contains _ (strip u)) eqn:E; [|reflexivity].
      apply contains_strip in E. congruence. }
  pose proof (result_validate u) as Hr. pose proof (trace_validate u) as Ht.
  destruct (strip u) as [|c s]; [congruence|]. rewrite Hhost in Hr, Ht.
  destruct (validate_youtube_url (VStr u)) as [t o].
  unfold result, trace in *. simpl in *. congruence.
Qed.

Lemma no_host_marker_rejected_witness :
  validate_youtube_url (VStr (str "  https://vimeo.com/123456 "))
  = ([ReSearch host_pattern (str "https://vimeo.com/123456")],
     Raised (Exn ValueError (str "Not a valid YouTube URL"))).
Proof.
  apply (no_host_marker_rejected (str "  https://vimeo.com/123456 "));
    [discriminate | reflexivity | reflexivity].
Defined.

(** C6, as stated, fails on a string of white space: it is not empty
    and contains no host marker, yet it is rejected by the first check,
    with the non-empty-string error. *)
Lemma whitespace_only_not_invalid_source :
  let u := str " " in
  u <> []
  /\ contains (str "youtube.com") u = false
  /\ contains (str "youtu.be") u = false
  /\ validate_youtube_url (VStr u)
     = ([], Raised (Exn ValueError (str "URL must be a non-empty string")))
  /\ result (validate_youtube_url (VStr u))
     <> Raised (Exn ValueError (str "Not a valid YouTube URL")).
Proof.
  split; [discriminate|]. split; [reflexivity|]. split; [reflexivity|].
  split; [reflexivity | discriminate].
Qed.

End ValidatorProperties.

(** ** Extraction and the endpoint, seen through results and traces *)

Section ExtractionViews.

Variable extract_info : ydl_opts -> pystr -> outcome (gmap pystr pyval).
Variable lower : pystr -> pystr.

Implicit Types (url mode : pystr) (request : DownloadRequest).

Lemma result_extract_body url mode :
  result (extract_body extract_info url mode) =
  match result (validate_youtube_url (VStr url)) with
  | Raised e => Raised e
  | Returned v =>
      match opts_of mode with
      | None => Raised (Exn ValueError (str "Mode must be 'audio' or 'video'"))
      | Some opts =>
          match extract_info opts (v_clean_url v) with
          | Raised e => Raised e
          | Returned info =>
              match result (select_entry info) with
              | Raised e => Raised e
              | Returned entry => result (read_link entry)
              end
          end
      end
  end.
Proof.
  unfold extract_body, opts_of. rewrite result_bind.
  destruct (result (validate_youtube_url (VStr url))) as [v|e];
    [|reflexivity].
  rewrite result_bind. cbn [result logger_info emit snd].
  rewrite result_bind.
  destruct (PyStr.eqb mode (str "audio"));
    [|destruct (PyStr.eqb mode (str "video"))];
    cbn [result ret raise snd]; try reflexivity;
    rewrite result_bind; cbn [result ydl_extract_info snd];
    (destruct (extract_info _ _) as [info|e]; [|reflexivity]);
    rewrite result_bind; reflexivity.
Qed.

Lemma result_extract_download_link url mode :
  result (extract_download_link extract_info url mode)
  = rewrap (result (extract_body extract_info url mode)).
Proof.
  unfold extract_download_link. rewrite result_try_except.
  destruct (result (extract_body extract_info url mode)); reflexivity.
Qed.

Lemma result_download_endpoint request :
  snd (download_endpoint extract_info lower request) =
  match result (extract_download_link extract_info (url request)
                  (lower (mode request))) with
  | Returned l => Return (Success (str "success") (title l) (download_url l))
  | Raised e => RaiseHTTP 500 (exn_str e)
  end.
Proof.
  unfold download_endpoint.
  pose proof (result_extract_download_link (url request)
                (lower (mode request))) as H.
  destruct (extract_download_link _ _ _) as [t [l|e]]; [reflexivity|].
  unfold result in H. simpl in H.
  destruct (extract_body _ _ _).2; [discriminate|].
  injection H as ->. reflexivity.
Qed.

(** The validator calls [re.search] and nothing else. *)
Lemma validate_no_library_call (v : pyval) :
  calls_library (trace (validate_youtube_url v)) = false.
Proof.
  destruct v as [| | | u | |]; try reflexivity.
  rewrite trace_validate. destruct (strip u) as [|c s]; [reflexivity|].
  cbn [calls_library existsb is_extract_info orb].
  destruct (search host_pattern (c :: s)); [|reflexivity].
  rewrite existsb_app.
  replace (existsb _ (map _ _)) with false.
  - destruct (first_match _ _); reflexivity.
  - symmetry. induction (tried video_patterns (c :: s)); simpl; auto.
Qed.

(** A request whose mode is rejected: the events are those of the
    validator and the two log lines. *)
Lemma trace_bad_mode url mode v :
  result (validate_youtube_url (VStr url)) = Returned v ->
  opts_of mode = None ->
  trace (extract_download_link extract_info url mode)
  = trace (validate_youtube_url (VStr url))
    ++ [Logged INFO (str "Extracting link for: " ++ v_clean_url v
                     ++ str " | mode: " ++ mode);
        Logged ERROR (str "Extraction failed")].
Proof.
  intros Hv Hm. unfold extract_download_link.
  rewrite trace_try_except, result_extract_body, Hv, Hm.
  unfold extract_body. rewrite trace_bind, Hv.
  rewrite <- app_assoc. f_equal.
  unfold opts_of in Hm.
  destruct (PyStr.eqb mode (str "audio")); [discriminate|].
  destruct (PyStr.eqb mode (str "video")); [discriminate|].
  reflexivity.
Qed.

End ExtractionViews.

(** ** Properties of the specification: extraction and the endpoint *)

Section EndpointProperties.

Variable extract_info : ydl_opts -> pystr -> outcome (gmap pystr pyval).
Variable lower : pystr -> pystr.

Implicit Types (url mode : pystr) (request : DownloadRequest).

Lemma trace_download_endpoint request :
  fst (download_endpoint extract_info lower request)
  = trace (extract_download_link extract_info (url request)
             (lower (mode request))).
Proof.
  unfold download_endpoint.
  destruct (extract_download_link _ _ _) as [t [l|e]]; reflexivity.
Qed.

Lemma opts_of_None mode :
  mode <> str "audio" -> mode <> str "video" -> opts_of mode = None.
Proof.
  intros Ha Hv. unfold opts_of.
  destruct (PyStr.eqb mode (str "audio")) eqn:E;
    [apply eqb_eq in E; contradiction|].
  destruct (PyStr.eqb mode (str "video")) eqn:E';
    [apply eqb_eq in E'; contradiction|].
  reflexivity.
Qed.

Lemma result_read_link (d : gmap pystr pyval) :
  result (read_link (VDict d)) =
  let title := default (VStr (str "video")) (d !! str "title") in
  match d !! str "url" with
  | Some x =>
      if truthy x then Returned (Link title x)
      else Raised (Exn RuntimeError (str "Could not extract download URL"))
  | None => Raised (Exn RuntimeError (str "Could not extract download URL"))
  end.
Proof.
  unfold read_link, get. cbn [bind ret].
  destruct (d !! str "url") as [x|]; [|reflexivity].
  destruct (d !! str "title"); cbn [default];
    destruct (truthy x); reflexivity.
Qed.

(** *** The catch-all and the status codes *)

(** C2. Whatever makes [extract_download_link] fail, the exception
    that leaves it is a [RuntimeError] carrying [str(e)] of the original
    one, validation errors included; so the endpoint answers a failure
    with status 500, a success with 200, and never raises the 400 of its
    [ValueError] branch. *)
Theorem every_failure_is_runtime_error request :
  let url := url request in
  let mode := lower (mode request) in
  let answer := snd (download_endpoint extract_info lower request) in
  result (extract_download_link extract_info url mode)
  = rewrap (result (extract_body extract_info url mode))
  /\ match result (validate_youtube_url (VStr url)) with
     | Raised e => answer = RaiseHTTP 500 (exn_str e)
     | Returned v =>
         match opts_of mode with
         | None => answer = RaiseHTTP 500 (str "Mode must be 'audio' or 'video'")
         | Some _ => True
         end
     end
  /\ match result (extract_download_link extract_info url mode) with
     | Returned l =>
         answer = Return (Success (str "success") (title l) (download_url l))
         /\ http_status answer = 200%Z
     | Raised e =>
         exn_class_of e = RuntimeError
         /\ answer = RaiseHTTP 500 (exn_str e)
         /\ http_status answer = 500%Z
     end
  /\ (http_status answer =? 400)%Z = false.
Proof.
  cbv zeta.
  rewrite result_download_endpoint, result_extract_download_link.
  split; [reflexivity|]. split; [|split].
  - rewrite result_extract_body.
    destruct (result (validate_youtube_url _)) as [v|e]; [|reflexivity].
    destruct (opts_of _); [exact I | reflexivity].
  - destruct (result (extract_body _ _ _)); simpl; auto.
  - destruct (result (extract_body _ _ _)); reflexivity.
Qed.

(** C1, at a URL that is no YouTube URL: the endpoint answers with
    status 500 and the validator's message, not with 400. *)
Theorem invalid_url_answered_500 :
  let answer :=
    download_endpoint extract_info lower
      (Request (str "https://vimeo.com/123456") (str "audio")) in
  answer
  = ([ReSearch host_pattern (str "https://vimeo.com/123456");
      Logged ERROR (str "Extraction failed")],
     RaiseHTTP 500 (str "Not a valid YouTube URL"))
  /\ http_status (snd answer) = 500%Z.
Proof. split; reflexivity. Qed.

(** C8, as the code has it. A request whose URL validates and whose
    lowercased mode is neither [audio] nor [video]: the mode check
    raises its [ValueError] and the library is never called; but the
    catch-all turns the error into a [RuntimeError], and the endpoint
    answers 500 where an invalid input should give 400. *)
Theorem bad_mode_rejected_before_extraction request v :
  result (validate_youtube_url (VStr (url request))) = Returned v ->
  lower (mode request) <> str "audio" ->
  lower (mode request) <> str "video" ->
  result (extract_body extract_info (url request) (lower (mode request)))
  = Raised (Exn ValueError (str "Mode must be 'audio' or 'video'"))
  /\ calls_library (fst (download_endpoint extract_info lower request))
     = false
  /\ snd (download_endpoint extract_info lower request)
     = RaiseHTTP 500 (str "Mode must be 'audio' or 'video'").
Proof.
  intros Hv Ha Hvid. pose proof (opts_of_None _ Ha Hvid) as Hm.
  split; [|split].
  - rewrite result_extract_body, Hv, Hm. reflexivity.
  - rewrite trace_download_endpoint, (trace_bad_mode _ _ _ v Hv Hm).
    unfold calls_library. rewrite existsb_app.
    fold (calls_library (trace (validate_youtube_url (VStr (url request))))).
    rewrite validate_no_library_call. reflexivity.
  - rewrite result_download_endpoint, result_extract_download_link,
      result_extract_body, Hv, Hm. reflexivity.
Qed.

(** *** What is read from the library's answer *)

(** C9. When the library's answer has an [entries] list, the first
    entry alone decides the outcome: it is what reading [url] and
    [title] from that entry gives, whatever the other entries and the
    other fields of the answer are. *)
Theorem first_entry_only url mode (v : validated) (opts : ydl_opts)
    (info : gmap pystr pyval) (entry : pyval) (others : list pyval) :
  result (validate_youtube_url (VStr url)) = Returned v ->
  opts_of mode = Some opts ->
  extract_info opts (v_clean_url v) = Returned info ->
  info !! str "entries" = Some (VList (entry :: others)) ->
  result (extract_download_link extract_info url mode)
  = rewrap (result (read_link entry))
  /\ forall (d : gmap pystr pyval) x,
       entry = VDict d -> d !! str "url" = Some x -> truthy x = true ->
       result (extract_download_link extract_info url mode)
       = Returned (Link (default (VStr (str "video")) (d !! str "title")) x).
Proof.
  intros Hv Hm Hinfo Hentries.
  assert (H : result (extract_download_link extract_info url mode)
              = rewrap (result (read_link entry))).
  { rewrite result_extract_download_link, result_extract_body, Hv, Hm, Hinfo.
    unfold select_entry. rewrite Hentries. reflexivity. }
  split; [exact H|].
  intros d x -> Hurl Hx. rewrite H, result_read_link. cbn zeta.
  rewrite Hurl, Hx. reflexivity.
Qed.

(** C10. When the library's answer (or its first entry) is a
    dictionary whose [url] is missing or falsy, the call fails with the
    extraction error and the endpoint answers 500; when [url] is there,
    the call succeeds with that URL and with the [title] field, or the
    title [video] when the field is missing. *)
Theorem missing_url_is_extraction_failure request (v : validated)
    (opts : ydl_opts) (info d : gmap pystr pyval) :
  let url := url request in
  let mode := lower (mode request) in
  let answer := snd (download_endpoint extract_info lower request) in
  result (validate_youtube_url (VStr url)) = Returned v ->
  opts_of mode = Some opts ->
  extract_info opts (v_clean_url v) = Returned info ->
  result (select_entry info) = Returned (VDict d) ->
  let failed :=
    result (extract_download_link extract_info url mode)
    = Raised (Exn RuntimeError (str "Could not extract download URL"))
    /\ answer = RaiseHTTP 500 (str "Could not extract download URL") in
  let title := default (VStr (str "video")) (d !! str "title") in
  match d !! str "url" with
  | None => failed
  | Some x =>
      if truthy x
      then result (extract_download_link extract_info url mode)
           = Returned (Link title x)
           /\ answer = Return (Success (str "success") title x)
      else failed
  end.
Proof.
  cbv zeta. intros Hv Hm Hinfo Hentry.
  rewrite result_download_endpoint.
  rewrite result_extract_download_link, result_extract_body, Hv, Hm, Hinfo,
    Hentry, result_read_link. cbn zeta.
  destruct (d !! str "url") as [x|]; [|split; reflexivity].
  destruct (truthy x); split; reflexivity.
Qed.

End EndpointProperties.

(** ** The properties at concrete requests *)

Section Witnesses.

Lemma bad_mode_rejected_before_extraction_witness :
  let request := Request (str "https://youtu.be/dQw4w9WgXcQ") (str "MP3") in
  result (extract_body single_medium (url request)
            (ascii_lower (mode request)))
  = Raised (Exn ValueError (str "Mode must be 'audio' or 'video'"))
  /\ calls_library (fst (download_endpoint single_medium ascii_lower request))
     = false
  /\ snd (download_endpoint single_medium ascii_lower request)
     = RaiseHTTP 500 (str "Mode must be 'audio' or 'video'").
Proof.
  apply (bad_mode_rejected_before_extraction single_medium ascii_lower
           (Request (str "https://youtu.be/dQw4w9WgXcQ") (str "MP3"))
           (Validated (str "video") (Some (str "dQw4w9WgXcQ"))
                      (str "https://www.youtube.com/watch?v=dQw4w9WgXcQ")));
    [reflexivity | vm_compute; discriminate | vm_compute; discriminate].
Defined.

Lemma first_entry_only_witness :
  result (extract_download_link two_entries
            (str "https://www.youtube.com/playlist?list=PL123")
            (str "audio"))
  = Returned (Link (VStr (str "First")) (VStr (str "https://cdn.example/1"))).
Proof.
  refine (proj2 (first_entry_only two_entries
           (str "https://www.youtube.com/playlist?list=PL123") (str "audio")
           (Validated (str "playlist") (Some (str "PL123"))
              (str "https://www.youtube.com/playlist?list=PL123"))
           audio_opts _ _ _ eq_refl eq_refl eq_refl eq_refl)
           _ _ eq_refl eq_refl eq_refl).
Defined.

Lemma missing_url_is_extraction_failure_witness :
  let request := Request (str "https://youtu.be/dQw4w9WgXcQ") (str "Video") in
  (result (extract_download_link unresolved_url (url request)
             (ascii_lower (mode request)))
   = Raised (Exn RuntimeError (str "Could not extract download URL"))
   /\ snd (download_endpoint unresolved_url ascii_lower request)
      = RaiseHTTP 500 (str "Could not extract download URL"))
  /\ (result (extract_download_link untitled (url request)
                (ascii_lower (mode request)))
      = Returned (Link (VStr (str "video"))
                       (VStr (str "https://cdn.example/v.mp4")))
      /\ snd (download_endpoint untitled ascii_lower request)
         = Return (Success (str "success") (VStr (str "video"))
                     (VStr (str "https://cdn.example/v.mp4")))).
Proof.
  split.
  - exact (missing_url_is_extraction_failure unresolved_url ascii_lower
             (Request (str "https://youtu.be/dQw4w9WgXcQ") (str "Video"))
             (Validated (str "video") (Some (str "dQw4w9WgXcQ"))
                (str "https://www.youtube.com/watch?v=dQw4w9WgXcQ"))
             video_opts _ _ eq_refl eq_refl eq_refl eq_refl).
  - exact (missing_url_is_extraction_failure untitled ascii_lower
             (Request (str "https://youtu.be/dQw4w9WgXcQ") (str "Video"))
             (Validated (str "video") (Some (str "dQw4w9WgXcQ"))
                (str "https://www.youtube.com/watch?v=dQw4w9WgXcQ"))
             video_opts _ _ eq_refl eq_refl eq_refl eq_refl).
Defined.

(** A request that succeeds is answered with the title and the URL. *)
Example success_answered_200 :
  let answer :=
    download_endpoint single_medium ascii_lower
      (Request (str "https://youtu.be/dQw4w9WgXcQ") (str "Video")) in
  snd answer
  = Return (Success (str "success") (VStr (str "Never Gonna Give You Up"))
              (VStr (str "https://cdn.example/v.mp4")))
  /\ http_status (snd answer) = 200%Z
  /\ List.filter is_extract_info (fst answer)
     = [ExtractInfo video_opts
          (str "https://www.youtube.com/watch?v=dQw4w9WgXcQ")].
Proof. vm_compute. auto. Qed.

(** A failure of the library is answered with 500 and its message. *)
Example library_failure_answered_500 :
  snd (download_endpoint unavailable ascii_lower
         (Request (str "https://youtu.be/dQw4w9WgXcQ") (str "audio")))
  = RaiseHTTP 500 (str "Video unavailable").
Proof. reflexivity. Qed.

(** An empty playlist has no first entry: the index error is wrapped
    like any other. *)
Example empty_playlist_answered_500 :
  snd (download_endpoint
         (fun _ _ => Returned (<[str "entries" := VList []]> ∅))
         ascii_lower
         (Request (str "https://www.youtube.com/playlist?list=PL123")
                  (str "audio")))
  = RaiseHTTP 500 (str "list index out of range").
Proof. reflexivity. Qed.

End Witnesses.


(** ** More about strings and the matcher *)

Section MoreFacts.

Implicit Types (r : regex) (l s t p u : pystr) (cl : list set_item).

Lemma rstrip_idempotent s : rstrip (rstrip s) = rstrip s.
Proof.
  induction s as [|c s IH]; [reflexivity|]. simpl.
  destruct (rstrip s) as [|d t] eqn:E.
  - destruct (is_space c) eqn:Hc; [reflexivity|]. simpl. rewrite Hc.
    reflexivity.
  - change (rstrip (c :: d :: t))
      with (match rstrip (d :: t) with
            | [] => if is_space c then [] else [c]
            | t' => c :: t'
            end).
    rewrite IH. reflexivity.
Qed.

(** What [lstrip] leaves does not begin with white space. *)
Lemma lstrip_head s :
  match lstrip s with [] => true | c :: _ => negb (is_space c) end = true.
Proof.
  induction s as [|c s IH]; [reflexivity|]. simpl.
  destruct (is_space c) eqn:Hc; [exact IH|]. simpl. rewrite Hc. reflexivity.
Qed.

(** [rstrip] keeps a first character that is not white space. *)
Lemma rstrip_cons c s :
  is_space c = false -> exists t, rstrip (c :: s) = c :: t.
Proof.
  intros Hc. simpl. destruct (rstrip s) as [|d t]; rewrite ?Hc; eauto.
Qed.

(** [rstrip] of a non-empty string is empty or keeps the first
    character. *)
Lemma rstrip_cons_cases c s :
  rstrip (c :: s) = [] \/ exists t, rstrip (c :: s) = c :: t.
Proof.
  simpl. destruct (rstrip s) as [|d t]; [|eauto].
  destruct (is_space c); eauto.
Qed.

Lemma strip_idempotent s : strip (strip s) = strip s.
Proof.
  unfold strip. pose proof (lstrip_head s) as H.
  destruct (lstrip s) as [|c t]; [reflexivity|].
  apply negb_true_iff in H.
  destruct (rstrip_cons c t H) as [t' Ht]. rewrite Ht. simpl lstrip.
  rewrite H, <- Ht. apply rstrip_idempotent.
Qed.

(** A string is its stripped form with white space around it. *)
Lemma strip_infix s : exists a b, s = a ++ strip s ++ b.
Proof.
  destruct (lstrip_suffix s) as [a Ha].
  destruct (rstrip_prefix (lstrip s)) as [b Hb].
  exists a, b. unfold strip. congruence.
Qed.

(** A literal cannot reach past a character it does not contain. *)
Lemma strip_prefix_not_past x l p t (r : pystr) :
  forallb (fun c => negb (x =? c)) l = true ->
  strip_prefix l (p ++ x :: t) = Some r -> is_Some (strip_prefix l p).
Proof.
  revert p. induction l as [|d l IH]; intros p Hl H; [simpl; eauto|].
  simpl in Hl. apply andb_true_iff in Hl as [Hd Hl].
  apply negb_true_iff in Hd. destruct p as [|e p]; simpl in *.
  - rewrite N.eqb_sym, Hd in H. discriminate.
  - destruct (d =? e); [eauto | discriminate].
Qed.

(** A pattern whose literal does not repeat its first character is first
    found at the first occurrence of the literal. *)
Lemma search_skip_absent x l r pre s :
  forallb (fun c => negb (x =? c)) l = true ->
  contains (x :: l) pre = false ->
  search (Cat (NonCap (Lit (x :: l))) r) (pre ++ (x :: l) ++ s)
  = search (Cat (NonCap (Lit (x :: l))) r) ((x :: l) ++ s).
Proof.
  intros Hl. induction pre as [|c pre IH]; [reflexivity|].
  intros Hpre. simpl in Hpre.
  destruct (x =? c) eqn:Hc.
  - destruct (strip_prefix l pre) eqn:Hp; [discriminate|].
    change ((c :: pre) ++ (x :: l) ++ s) with (c :: pre ++ x :: (l ++ s)).
    rewrite search_skip; [apply IH; exact Hpre|].
    unfold match_here. simpl. rewrite Hc.
    destruct (strip_prefix l (pre ++ x :: l ++ s)) as [t|] eqn:E;
      [|reflexivity].
    destruct (strip_prefix_not_past x l pre (l ++ s) t Hl E) as [t' Ht'].
    congruence.
  - change ((c :: pre) ++ (x :: l) ++ s) with (c :: pre ++ x :: (l ++ s)).
    rewrite search_skip; [apply IH; exact Hpre|].
    unfold match_here. simpl. rewrite Hc. reflexivity.
Qed.

Lemma star_charset_cons cl (k : cont) fuel c s g :
  star (match_at (CharSet cl)) (S fuel) (c :: s) g k
  = if in_set cl c
    then match star (match_at (CharSet cl)) fuel s g k with
         | Some m => Some m
         | None => k (c :: s) g
         end
    else k (c :: s) g.
Proof.
  simpl. destruct (in_set cl c); [|reflexivity].
  replace (length s <? S (length s))%nat with true
    by (symmetry; apply Nat.ltb_lt; lia).
  reflexivity.
Qed.

Lemma star_charset_inv cl (k : cont) fuel s g m :
  star (match_at (CharSet cl)) fuel s g k = Some m ->
  exists id rest,
    s = id ++ rest /\ forallb (in_set cl) id = true /\ k rest g = Some m.
Proof.
  revert s. induction fuel as [|fuel IH]; intros s H.
  - exists [], s. auto.
  - destruct s as [|c s]; [exists [], []; auto|].
    rewrite star_charset_cons in H.
    destruct (in_set cl c) eqn:Hc; [|exists [], (c :: s); auto].
    destruct (star (match_at (CharSet cl)) fuel s g k) as [m'|] eqn:E.
    + injection H as <-. destruct (IH _ E) as (id & rest & -> & Hid & Hk).
      exists (c :: id), rest. simpl. rewrite Hc. auto.
    + exists [], (c :: s). auto.
Qed.

(** Where [(?:l)([...]+)] matches, the literal and a non-empty run of
    characters of the set stand, and group 1 is such a run. *)
Lemma match_lit_plus_inv l cl t m :
  match_here (Cat (NonCap (Lit l)) (Group (Plus (CharSet cl)))) t = Some m ->
  exists id rest,
    t = l ++ id ++ rest /\ id <> [] /\ forallb (in_set cl) id = true
    /\ m = Some id.
Proof.
  rewrite match_here_lit_group.
  destruct (strip_prefix l t) as [s|] eqn:E; [|discriminate].
  apply strip_prefix_Some in E as ->.
  destruct s as [|c s]; [discriminate|].
  change (match_at (Plus (CharSet cl)) (c :: s) None ?k)
    with (if in_set cl c
          then star (match_at (CharSet cl)) (length s) s None k
          else None).
  destruct (in_set cl c) eqn:Hc; [|discriminate]. intros H.
  apply star_charset_inv in H as (id & rest & -> & Hid & Hk).
  exists (c :: id), rest. change (c :: id ++ rest) with ((c :: id) ++ rest) in Hk.
  rewrite take_consumed in Hk. simpl. rewrite Hc.
  repeat split; [discriminate | assumption | congruence].
Qed.

Lemma first_match_inv ps u m :
  first_match ps u = Some m ->
  exists q : regex, In q ps /\ search q u = Some m.
Proof.
  induction ps as [|q ps IH]; simpl; [discriminate|].
  destruct (search q u) as [m'|] eqn:E.
  - intros [= <-]. eauto.
  - intros H. destruct (IH H) as (q' & Hq & Hs). eauto.
Qed.

End MoreFacts.

(** ** More properties of the validator *)

Section MoreValidator.

Implicit Types (u s id pre rest : pystr).

(** What a successful validation returns. *)
Lemma validated_shape u v :
  result (validate_youtube_url (VStr u)) = Returned v ->
  exists id,
    is_id id = true
    /\ ((length id = 11%nat
         /\ v = Validated (str "video") (Some id) (watch_url id))
        \/ (id <> []
            /\ v = Validated (str "playlist") (Some id) (playlist_url id))).
Proof.
  rewrite result_validate. destruct (strip u) as [|c s]; [discriminate|].
  destruct (search host_pattern (c :: s)); [|discriminate].
  destruct (first_match video_patterns (c :: s)) as [g|] eqn:Ev.
  - intros [= <-]. apply first_match_inv in Ev as (q & Hq & Hs).
    destruct (video_match_inv q _ g Hq Hs) as ((id & -> & Hlen & Hid) & _).
    exists id. auto.
  - destruct (search playlist_pattern (c :: s)) as [g|] eqn:Ep;
      [|discriminate].
    intros [= <-]. apply search_inv in Ep as (a & t & _ & Ht).
    apply match_lit_plus_inv in Ht as (id & rest & _ & Hne & Hid & ->).
    exists id. auto.
Qed.

Lemma validate_playlist_url id :
  id <> [] -> is_id id = true ->
  result (validate_youtube_url (VStr (playlist_url id)))
  = Returned (Validated (str "playlist") (Some id) (playlist_url id)).
Proof.
  intros Hne Hid.
  assert (Hs : strip (playlist_url id) = playlist_url id)
    by (apply (strip_url 104 (str "ttps://www.youtube.com/playlist?list="));
        auto).
  apply (validate_playlist _ (Some id)); rewrite Hs.
  - discriminate.
  - apply (host_found (str "youtube.com")); [auto|].
    apply contains_spec.
    exists (str "https://www."), (str "/playlist?list=" ++ id). reflexivity.
  - apply first_match_None, playlist_url_no_video_match, Hid.
  - apply (search_playlist_pattern (str "https://www.")); auto.
Qed.

(** X1. Validation ends in one of five ways: one of its three
    [ValueError]s, a video (an identifier of eleven characters and its
    watch URL), or a playlist (a non-empty identifier and its playlist
    URL); identifiers hold only characters of [[A-Za-z0-9_-]]. *)
Theorem validate_outcomes (url : pyval) :
  match result (validate_youtube_url url) with
  | Raised e =>
      exn_class_of e = ValueError /\ In (exn_str e) validator_messages
  | Returned v =>
      exists id,
        is_id id = true /\ v_id v = Some id
        /\ ((v_type v = str "video" /\ length id = 11%nat
             /\ v_clean_url v = str "https://www.youtube.com/watch?v=" ++ id)
            \/ (v_type v = str "playlist" /\ id <> []
                /\ v_clean_url v
                   = str "https://www.youtube.com/playlist?list=" ++ id))
  end.
Proof.
  destruct url as [| | | u | |];
    try (split; [reflexivity | left; reflexivity]).
  destruct (result (validate_youtube_url (VStr u))) as [v|e] eqn:E.
  - destruct (validated_shape u v E) as (id & Hid & [[Hl ->] | [Hne ->]]);
      exists id; simpl; auto 10.
  - rewrite result_validate in E. unfold validator_messages.
    destruct (strip u) as [|c s]; [injection E as <-; simpl; auto|].
    destruct (search host_pattern (c :: s)); [|injection E as <-; simpl; auto].
    destruct (first_match video_patterns (c :: s)); [discriminate|].
    destruct (search playlist_pattern (c :: s)); [discriminate|].
    injection E as <-. simpl. auto.
Qed.

(** X2. The canonical URL of a validated input validates to the very
    same result: validation is idempotent on what it returns. *)
Theorem canonical_url_revalidates u v :
  result (validate_youtube_url (VStr u)) = Returned v ->
  result (validate_youtube_url (VStr (v_clean_url v))) = Returned v.
Proof.
  intros H. destruct (validated_shape u v H)
    as (id & Hid & [[Hlen ->] | [Hne ->]]); simpl v_clean_url.
  - apply validate_watch_url; assumption.
  - apply validate_playlist_url; assumption.
Qed.

Lemma canonical_url_revalidates_witness :
  let v := Validated (str "video") (Some (str "dQw4w9WgXcQ"))
             (str "https://www.youtube.com/watch?v=dQw4w9WgXcQ") in
  result (validate_youtube_url
            (VStr (str " https://youtu.be/dQw4w9WgXcQ?t=42 "))) = Returned v
  /\ result (validate_youtube_url
               (VStr (str "https://www.youtube.com/watch?v=dQw4w9WgXcQ")))
     = Returned v.
Proof.
  split; [reflexivity|].
  exact (canonical_url_revalidates
           (str " https://youtu.be/dQw4w9WgXcQ?t=42 ") _ eq_refl).
Defined.

(** X3. White space around the input does not count: the validator does
    on a string exactly what it does on the stripped string, searches
    included. *)
Theorem surrounding_whitespace_ignored u :
  validate_youtube_url (VStr u) = validate_youtube_url (VStr (strip u)).
Proof.
  unfold validate_youtube_url. rewrite strip_idempotent. reflexivity.
Qed.

(** X4. The first watch link of the input decides: whatever stands
    before it (a scheme, another host prefix, white space) and whatever
    follows the eleven characters (further parameters), the result is the
    video of those eleven characters. *)
Theorem first_watch_link_decides pre id rest :
  length id = 11%nat -> is_id id = true ->
  contains (str "youtube.com/watch?v=") pre = false ->
  result (validate_youtube_url
            (VStr (pre ++ str "youtube.com/watch?v=" ++ id ++ rest)))
  = Returned (Validated (str "video") (Some id)
                (str "https://www.youtube.com/watch?v=" ++ id)).
Proof.
  intros Hlen Hid Hpre. pose proof (length_11_nonempty id Hlen) as Hne.
  assert (Hs : strip (pre ++ str "youtube.com/watch?v=" ++ id ++ rest)
               = lstrip pre ++ (str "youtube.com/watch?v=" ++ id)
                 ++ rstrip rest).
  { rewrite <- strip_app_keep.
    - rewrite <- !app_assoc. reflexivity.
    - discriminate.
    - rewrite forallb_app. rewrite (is_id_no_space id Hid). reflexivity. }
  assert (Hpre' : contains (str "youtube.com/watch?v=") (lstrip pre) = false).
  { destruct (contains _ (lstrip pre)) eqn:E; [|reflexivity].
    destruct (lstrip_suffix pre) as [a Ha].
    pose proof (contains_middle _ a _ [] E) as H.
    rewrite app_nil_r, <- Ha in H. congruence. }
  apply (validate_video _ (Some id)); rewrite Hs.
  - destruct (lstrip pre); discriminate.
  - apply (host_found (str "youtube.com")); [auto|].
    apply contains_spec.
    exists (lstrip pre), (str "/watch?v=" ++ id ++ rstrip rest).
    rewrite <- !app_assoc. reflexivity.
  - cbn [first_match video_patterns].
    change (str "youtube.com/watch?v=")
      with (121 :: str "outube.com/watch?v=") in *.
    rewrite <- app_assoc.
    rewrite search_skip_absent by (reflexivity || assumption).
    rewrite (search_here _ _ (Some id)); [reflexivity|].
    rewrite <- Hlen. apply match_lit_rep. exact Hid.
Qed.

Lemma first_watch_link_decides_witness :
  result (validate_youtube_url
            (VStr (str "  http://music.youtube.com/watch?v=dQw4w9WgXcQ&list=PL123&t=42s ")))
  = Returned (Validated (str "video") (Some (str "dQw4w9WgXcQ"))
                (str "https://www.youtube.com/watch?v=dQw4w9WgXcQ")).
Proof.
  exact (first_watch_link_decides (str "  http://music.")
           (str "dQw4w9WgXcQ") (str "&list=PL123&t=42s ")
           eq_refl eq_refl eq_refl).
Defined.

End MoreValidator.

(** ** Identifiers that are too short, and parameters after a playlist *)

Section MoreUrlShapes.

Implicit Types (u s id pre rest : pystr).

(** A video pattern does not match a URL whose identifier has fewer
    characters than the pattern asks for. *)
Lemma search_rep_short x l l0 y n pre id :
  forallb (fun c => negb (x =? c)) pre = true ->
  x :: l = l0 ++ [y] -> in_set id_chars y = false ->
  contains (x :: l) l = false ->
  is_id id = true -> (length id < n)%nat ->
  search (Cat (NonCap (Lit (x :: l))) (Group (Rep n (CharSet id_chars))))
         (pre ++ (x :: l) ++ id) = None.
Proof.
  intros Hpre Hl Hy Hself Hid Hlen.
  rewrite search_skip_prefix by exact Hpre.
  change ((x :: l) ++ id) with (x :: (l ++ id)). rewrite search_skip.
  - apply search_lit_None. rewrite Hl in *.
    apply (contains_not_into_run id_chars); assumption.
  - change (x :: (l ++ id)) with ((x :: l) ++ id).
    rewrite match_here_lit_group, strip_prefix_app.
    destruct (match_at _ id None _) as [m|] eqn:E; [|reflexivity].
    apply times_charset_inv in E as (id' & rest & -> & <- & _).
    rewrite length_app in Hlen. lia.
Qed.

Lemma strip_literal_id lit id :
  lit <> [] -> forallb (fun c => negb (is_space c)) lit = true ->
  is_id id = true -> strip (lit ++ id) = lit ++ id.
Proof.
  intros Hne Hlit Hid.
  pose proof (strip_app_keep [] (lit ++ id) []) as H.
  rewrite app_nil_r in H. simpl in H. rewrite app_nil_r in H. apply H.
  - destruct lit; [congruence | discriminate].
  - rewrite forallb_app, Hlit. apply is_id_no_space, Hid.
Qed.

(** Rewrite away the search of the video pattern whose literal begins the
    identifier that is too short. *)
Ltac short_search x l l0 y pre id :=
  match goal with
  | |- context [search (Cat (NonCap (Lit ?L)) (Group (Rep 11 ?c))) ?s] =>
      replace (search (Cat (NonCap (Lit L)) (Group (Rep 11 c))) s)
        with (@None match_obj)
        by (symmetry; apply (search_rep_short x l l0 y 11 pre id); auto)
  end.

(** X5. A watch, [youtu.be] or shorts URL whose identifier has fewer
    than eleven characters (none at all included) is rejected with the
    format error: nothing pads or accepts a short identifier. *)
Theorem short_id_rejected id :
  is_id id = true -> (length id < 11)%nat ->
  let err := Raised (Exn ValueError (str "Invalid YouTube URL format")) in
  result (validate_youtube_url (VStr (watch_url id))) = err
  /\ result (validate_youtube_url (VStr (short_url id))) = err
  /\ result (validate_youtube_url (VStr (shorts_url id))) = err.
Proof.
  intros Hid Hlen err. subst err. split; [|split]; rewrite result_validate.
  - unfold watch_url. rewrite strip_literal_id by (auto || discriminate).
    assert (Hh : search host_pattern
                   (str "https://www.youtube.com/watch?v=" ++ id) <> None).
    { apply (host_found (str "youtube.com")); [auto|]. apply contains_spec.
      exists (str "https://www."), (str "/watch?v=" ++ id). reflexivity. }
    destruct (search host_pattern _); [|congruence].
    cbn [first_match video_patterns].
    short_search 121 (str "outube.com/watch?v=") (str "youtube.com/watch?v")
      61 (str "https://www.") id.
    rewrite (search_absent (str "youtu.be") 47 _
               (str "https://www.youtube.com/watch?v=") id) by auto.
    rewrite (search_absent (str "youtube.com/shorts") 47 _
               (str "https://www.youtube.com/watch?v=") id) by auto.
    unfold playlist_pattern.
    rewrite (search_absent (str "youtube.com/playlist?list") 61 _
               (str "https://www.youtube.com/watch?v=") id) by auto.
    reflexivity.
  - unfold short_url. rewrite strip_literal_id by (auto || discriminate).
    assert (Hh : search host_pattern (str "https://youtu.be/" ++ id) <> None).
    { apply (host_found (str "youtu.be")); [auto|]. apply contains_spec.
      exists (str "https://"), (str "/" ++ id). reflexivity. }
    destruct (search host_pattern _); [|congruence].
    cbn [first_match video_patterns].
    rewrite (search_absent (str "youtube.com/watch?v") 61 _
               (str "https://youtu.be/") id) by auto.
    short_search 121 (str "outu.be/") (str "youtu.be") 47 (str "https://") id.
    rewrite (search_absent (str "youtube.com/shorts") 47 _
               (str "https://youtu.be/") id) by auto.
    unfold playlist_pattern.
    rewrite (search_absent (str "youtube.com/playlist?list") 61 _
               (str "https://youtu.be/") id) by auto.
    reflexivity.
  - unfold shorts_url. rewrite strip_literal_id by (auto || discriminate).
    assert (Hh : search host_pattern
                   (str "https://www.youtube.com/shorts/" ++ id) <> None).
    { apply (host_found (str "youtube.com")); [auto|]. apply contains_spec.
      exists (str "https://www."), (str "/shorts/" ++ id). reflexivity. }
    destruct (search host_pattern _); [|congruence].
    cbn [first_match video_patterns].
    rewrite (search_absent (str "youtube.com/watch?v") 61 _
               (str "https://www.youtube.com/shorts/") id) by auto.
    rewrite (search_absent (str "youtu.be") 47 _
               (str "https://www.youtube.com/shorts/") id) by auto.
    short_search 121 (str "outube.com/shorts/") (str "youtube.com/shorts")
      47 (str "https://www.") id.
    unfold playlist_pattern.
    rewrite (search_absent (str "youtube.com/playlist?list") 61 _
               (str "https://www.youtube.com/shorts/") id) by auto.
    reflexivity.
Qed.

Lemma short_id_rejected_witness :
  let err := Raised (Exn ValueError (str "Invalid YouTube URL format")) in
  result (validate_youtube_url
            (VStr (str "https://www.youtube.com/watch?v=dQw4w9WgXc"))) = err
  /\ result (validate_youtube_url (VStr (str "https://youtu.be/dQw4w9WgXc")))
     = err
  /\ result (validate_youtube_url
               (VStr (str "https://www.youtube.com/shorts/dQw4w9WgXc"))) = err.
Proof.
  apply (short_id_rejected (str "dQw4w9WgXc")); [reflexivity|].
  vm_compute. lia.
Defined.

(** A video pattern found in the stripped input is found in the raw
    input. *)
Lemma video_match_unstrip p u :
  In p video_patterns -> matches p (strip u) = true -> matches p u = true.
Proof.
  intros Hp. destruct (video_pattern_shape p Hp) as (h & tl & -> & _).
  unfold matches. destruct (search _ (strip u)) as [m|] eqn:E;
    [|discriminate].
  intros _. apply search_inv in E as (a & t & Hu & Ht).
  apply match_lit_rep_inv in Ht as (id & rest & -> & Hlen & Hid & _).
  destruct (strip_infix u) as (a0 & b0 & Hu0). rewrite Hu in Hu0.
  assert (Hf : search (Cat (NonCap (Lit (h ++ tl)))
                           (Group (Rep 11 (CharSet id_chars)))) u <> None).
  { replace u with ((a0 ++ a) ++ (h ++ tl) ++ id ++ (rest ++ b0))
      by (rewrite Hu0, <- !app_assoc; reflexivity).
    apply (search_found _ _ _ (Some id)).
    rewrite <- Hlen. apply match_lit_rep. exact Hid. }
  destruct (search _ u); [reflexivity | congruence].
Qed.

(** X6. What follows the identifier of a playlist URL is dropped: the
    identifier is the whole run of identifier characters after [list=],
    and the canonical URL ends there, as long as no video link stands in
    the input. *)
Theorem playlist_parameters_dropped id rest :
  id <> [] -> is_id id = true ->
  match rest with [] => true | c :: _ => negb (in_set id_chars c) end = true ->
  existsb (fun p => matches p (playlist_url id ++ rest)) video_patterns
  = false ->
  result (validate_youtube_url (VStr (playlist_url id ++ rest)))
  = Returned (Validated (str "playlist") (Some id)
                (str "https://www.youtube.com/playlist?list=" ++ id)).
Proof.
  intros Hne Hid Hrest Hvideo.
  assert (Hs : strip (playlist_url id ++ rest)
               = playlist_url id ++ rstrip rest).
  { apply (strip_app_keep [] (playlist_url id) rest).
    - discriminate.
    - unfold playlist_url. rewrite forallb_app, (is_id_no_space id Hid).
      reflexivity. }
  assert (Hrest' : match rstrip rest with
                   | [] => true
                   | c :: _ => negb (in_set id_chars c)
                   end = true).
  { destruct rest as [|c rest]; [reflexivity|].
    destruct (rstrip_cons_cases c rest) as [-> | [t ->]];
      [reflexivity | exact Hrest]. }
  apply (validate_playlist _ (Some id)); rewrite Hs.
  - discriminate.
  - apply (host_found (str "youtube.com")); [auto|]. apply contains_spec.
    exists (str "https://www."), (str "/playlist?list=" ++ id ++ rstrip rest).
    unfold playlist_url. rewrite <- !app_assoc. reflexivity.
  - apply first_match_None. rewrite <- Hs.
    destruct (existsb (fun p => matches p (strip (playlist_url id ++ rest)))
                      video_patterns) eqn:E; [|reflexivity].
    apply existsb_exists in E as (p & Hp & Hm).
    apply video_match_unstrip in Hm; [|exact Hp].
    assert (existsb (fun p => matches p (playlist_url id ++ rest))
                    video_patterns = true)
      by (apply existsb_exists; eauto).
    congruence.
  - unfold playlist_url, playlist_pattern.
    change (str "https://www.youtube.com/playlist?list=")
      with (str "https://www." ++ (121 :: str "outube.com/playlist?list=")).
    change (str "youtube.com/playlist?list=")
      with (121 :: str "outube.com/playlist?list=").
    rewrite <- !app_assoc. rewrite search_skip_prefix by reflexivity.
    apply search_here, match_lit_plus; assumption.
Qed.

Lemma playlist_parameters_dropped_witness :
  result (validate_youtube_url
            (VStr (str "https://www.youtube.com/playlist?list=PL123&index=2")))
  = Returned (Validated (str "playlist") (Some (str "PL123"))
                (str "https://www.youtube.com/playlist?list=PL123")).
Proof.
  apply (playlist_parameters_dropped (str "PL123") (str "&index=2"));
    [discriminate | reflexivity | reflexivity | vm_compute; reflexivity].
Defined.

End MoreUrlShapes.

(** ** The whole trace of a request *)

Section RequestTrace.

Variable extract_info : ydl_opts -> pystr -> outcome (gmap pystr pyval).
Variable lower : pystr -> pystr.

Implicit Types (url mode : pystr) (request : DownloadRequest).

Lemma trace_select_entry (info : gmap pystr pyval) :
  trace (select_entry info) = [].
Proof.
  unfold select_entry. destruct (info !! str "entries") as [v|];
    [|reflexivity].
  destruct v as [| | | [|c s] | [|x l] |]; reflexivity.
Qed.

Lemma trace_read_link (entry : pyval) :
  trace (read_link entry) =
  match result (read_link entry) with
  | Returned _ => [Logged INFO (str "Extraction successful")]
  | Raised _ => []
  end.
Proof.
  destruct entry as [| | | | |d]; try reflexivity.
  unfold read_link, get. cbn [bind ret].
  destruct (d !! str "url") as [x|]; [|reflexivity].
  destruct (d !! str "title"); destruct (truthy x); reflexivity.
Qed.

(** The events of the [try] block, in order. *)
Lemma trace_extract_body url mode :
  trace (extract_body extract_info url mode) =
  trace (validate_youtube_url (VStr url)) ++
  match result (validate_youtube_url (VStr url)) with
  | Raised _ => []
  | Returned v =>
      Logged INFO (str "Extracting link for: " ++ v_clean_url v
                   ++ str " | mode: " ++ mode) ::
      match opts_of mode with
      | None => []
      | Some opts =>
          ExtractInfo opts (v_clean_url v) ::
          match extract_info opts (v_clean_url v) with
          | Raised _ => []
          | Returned info =>
              match result (select_entry info) with
              | Raised _ => []
              | Returned entry => trace (read_link entry)
              end
          end
      end
  end.
Proof.
  unfold extract_body, opts_of. rewrite trace_bind.
  destruct (result (validate_youtube_url (VStr url))) as [v|e];
    [|rewrite app_nil_r; reflexivity].
  f_equal. rewrite trace_bind. cbn [result trace logger_info emit fst snd].
  cbn [app]. f_equal. rewrite trace_bind.
  destruct (PyStr.eqb mode (str "audio"));
    [|destruct (PyStr.eqb mode (str "video"))];
    cbn [result trace ret raise fst snd app]; try reflexivity;
    rewrite trace_bind; cbn [result trace ydl_extract_info fst snd];
    (destruct (extract_info _ _) as [info|e]; [|reflexivity]);
    cbn [app]; f_equal; rewrite trace_bind, trace_select_entry;
    destruct (result (select_entry info)); reflexivity.
Qed.

Lemma trace_extract_download_link url mode :
  trace (extract_download_link extract_info url mode) =
  trace (extract_body extract_info url mode) ++
  match result (extract_body extract_info url mode) with
  | Returned _ => []
  | Raised _ => [Logged ERROR (str "Extraction failed")]
  end.
Proof.
  unfold extract_download_link. rewrite trace_try_except.
  destruct (result (extract_body extract_info url mode));
    [rewrite app_nil_r|]; reflexivity.
Qed.

(** The validator's events are searches: a test that no search passes
    finds nothing in its trace. *)
Lemma filter_validate (f : event -> bool) (v : pyval) :
  (forall r s, f (ReSearch r s) = false) ->
  List.filter f (trace (validate_youtube_url v)) = [].
Proof.
  intros Hf. destruct v as [| | | u | |]; try reflexivity.
  rewrite trace_validate. destruct (strip u) as [|c s]; [reflexivity|].
  cbn [List.filter]. rewrite Hf.
  destruct (search host_pattern (c :: s)); [|reflexivity].
  rewrite List.filter_app.
  replace (List.filter f (map _ _)) with (@nil event).
  - destruct (first_match _ _); cbn [List.filter app]; rewrite ?Hf;
      reflexivity.
  - symmetry. induction (tried video_patterns (c :: s)) as [|p ps IH];
      [reflexivity|]. cbn [map List.filter]. rewrite Hf. exact IH.
Qed.

Lemma read_link_returned (entry : pyval) l :
  result (read_link entry) = Returned l -> truthy (download_url l) = true.
Proof.
  destruct entry as [| | | | |d]; try discriminate.
  rewrite result_read_link. cbn zeta.
  destruct (d !! str "url") as [x|]; [|discriminate].
  destruct (truthy x) eqn:Hx; [|discriminate].
  intros [= <-]. exact Hx.
Qed.

End RequestTrace.

(** ** More properties of the endpoint *)

Section MoreEndpoint.

Variable extract_info : ydl_opts -> pystr -> outcome (gmap pystr pyval).
Variable lower : pystr -> pystr.

Implicit Types (url mode : pystr) (request : DownloadRequest).

(** X7. A request calls the extraction library at most once: exactly
    once when the URL validates and the lowercased mode is [audio] or
    [video], with the canonical URL and that mode's options (which never
    download and never expand a playlist); not at all otherwise. *)
Theorem library_called_at_most_once request :
  let calls :=
    List.filter is_extract_info
      (fst (download_endpoint extract_info lower request)) in
  match result (validate_youtube_url (VStr (url request))),
        opts_of (lower (mode request)) with
  | Returned v, Some opts =>
      calls = [ExtractInfo opts (v_clean_url v)]
      /\ (opts = audio_opts \/ opts = video_opts)
      /\ skip_download opts = true /\ noplaylist opts = true
  | _, _ => calls = []
  end.
Proof.
  cbv zeta.
  rewrite trace_download_endpoint, trace_extract_download_link,
    result_extract_body, trace_extract_body.
  rewrite !List.filter_app, filter_validate by reflexivity.
  destruct (result (validate_youtube_url _)) as [v|e]; [|reflexivity].
  destruct (opts_of (lower (mode request))) as [opts|] eqn:Ho;
    [|reflexivity].
  assert (Hopts : opts = audio_opts \/ opts = video_opts).
  { unfold opts_of in Ho. destruct (PyStr.eqb _ (str "audio")).
    - injection Ho as <-. auto.
    - destruct (PyStr.eqb _ (str "video")); [|discriminate].
      injection Ho as <-. auto. }
  split; [|split; [exact Hopts | destruct Hopts as [-> | ->]; auto]].
  cbn [app List.filter is_extract_info]. f_equal.
  destruct (extract_info opts (v_clean_url v)) as [info|e]; [|reflexivity].
  destruct (result (select_entry info)) as [entry|e]; [|reflexivity].
  rewrite trace_read_link. destruct (result (read_link entry)); reflexivity.
Qed.

(** X8. Every failure is logged, once, as the last thing the request
    does; a request that succeeds logs no error and ends with the
    success line. *)
Theorem failures_logged_once request :
  let answer := download_endpoint extract_info lower request in
  match snd answer with
  | Return _ =>
      List.filter is_error_log (fst answer) = []
      /\ last (fst answer) = Some (Logged INFO (str "Extraction successful"))
  | _ =>
      List.filter is_error_log (fst answer)
      = [Logged ERROR (str "Extraction failed")]
      /\ last (fst answer) = Some (Logged ERROR (str "Extraction failed"))
  end.
Proof.
  cbv zeta.
  rewrite result_download_endpoint, result_extract_download_link,
    trace_download_endpoint, trace_extract_download_link,
    result_extract_body, trace_extract_body.
  rewrite !List.filter_app, filter_validate by reflexivity.
  destruct (result (validate_youtube_url _)) as [v|e];
    [|split; [reflexivity | rewrite app_nil_r; apply last_snoc]].
  destruct (opts_of (lower (mode request))) as [opts|];
    [|split; [reflexivity | apply last_snoc]].
  destruct (extract_info opts (v_clean_url v)) as [info|e];
    [|split; [reflexivity | apply last_snoc]].
  destruct (result (select_entry info)) as [entry|e];
    [|split; [reflexivity | apply last_snoc]].
  rewrite trace_read_link.
  destruct (result (read_link entry)) as [l|e];
    (split; [reflexivity|]).
  - rewrite app_nil_r.
    rewrite (last_app _ [_; _; _]). reflexivity.
  - apply last_snoc.
Qed.

(** X9. A success response never carries an empty link: its
    [download_url] is truthy, and its status field is [success]. *)
Theorem success_has_download_url request body :
  snd (download_endpoint extract_info lower request) = Return body ->
  status body = str "success" /\ truthy (s_download_url body) = true.
Proof.
  rewrite result_download_endpoint, result_extract_download_link,
    result_extract_body.
  destruct (result (validate_youtube_url _)) as [v|e]; [|discriminate].
  destruct (opts_of _) as [opts|]; [|discriminate].
  destruct (extract_info opts (v_clean_url v)) as [info|e]; [|discriminate].
  destruct (result (select_entry info)) as [entry|e]; [|discriminate].
  destruct (result (read_link entry)) as [l|e] eqn:E; [|discriminate].
  intros [= <-]. split; [reflexivity|].
  exact (read_link_returned entry l E).
Qed.

(** X10. An answer whose [entries] list is empty fails with the index
    error, wrapped like any other: the answer's own [url] and [title] are
    not looked at once [entries] is there. *)
Theorem empty_entries_rejected request (v : validated) (opts : ydl_opts)
    (info : gmap pystr pyval) :
  result (validate_youtube_url (VStr (url request))) = Returned v ->
  opts_of (lower (mode request)) = Some opts ->
  extract_info opts (v_clean_url v) = Returned info ->
  info !! str "entries" = Some (VList []) ->
  snd (download_endpoint extract_info lower request)
  = RaiseHTTP 500 (str "list index out of range").
Proof.
  intros Hv Ho Hi He.
  rewrite result_download_endpoint, result_extract_download_link,
    result_extract_body, Hv, Ho, Hi.
  unfold select_entry. rewrite He. reflexivity.
Qed.

(** X11. A first entry that is not a dictionary (the library leaves
    [None] for an entry it could not resolve) fails the request with the
    attribute error of [.get], whatever the later entries hold. *)
Theorem non_dict_entry_rejected request (v : validated) (opts : ydl_opts)
    (info : gmap pystr pyval) (entry : pyval) (others : list pyval) :
  result (validate_youtube_url (VStr (url request))) = Returned v ->
  opts_of (lower (mode request)) = Some opts ->
  extract_info opts (v_clean_url v) = Returned info ->
  info !! str "entries" = Some (VList (entry :: others)) ->
  match entry with VDict _ => False | _ => True end ->
  snd (download_endpoint extract_info lower request)
  = RaiseHTTP 500 (str "'" ++ type_name entry
                   ++ str "' object has no attribute 'get'").
Proof.
  intros Hv Ho Hi He Hentry.
  rewrite result_download_endpoint, result_extract_download_link,
    result_extract_body, Hv, Ho, Hi.
  unfold select_entry. rewrite He.
  destruct entry; try reflexivity. contradiction.
Qed.

(** X12. An exception of the library, of whatever class, reaches the
    client as status 500 with exactly the library's message; nothing is
    read or logged as a success after it. *)
Theorem library_error_passed_through request (v : validated)
    (opts : ydl_opts) (e : exn) :
  result (validate_youtube_url (VStr (url request))) = Returned v ->
  opts_of (lower (mode request)) = Some opts ->
  extract_info opts (v_clean_url v) = Raised e ->
  download_endpoint extract_info lower request
  = (trace (validate_youtube_url (VStr (url request)))
     ++ [Logged INFO (str "Extracting link for: " ++ v_clean_url v
                      ++ str " | mode: " ++ lower (mode request));
         ExtractInfo opts (v_clean_url v);
         Logged ERROR (str "Extraction failed")],
     RaiseHTTP 500 (exn_str e)).
Proof.
  intros Hv Ho He.
  rewrite (surjective_pairing (download_endpoint _ _ _)).
  rewrite result_download_endpoint, result_extract_download_link,
    trace_download_endpoint, trace_extract_download_link,
    result_extract_body, trace_extract_body, Hv, Ho, He.
  rewrite <- app_assoc. reflexivity.
Qed.

End MoreEndpoint.

Section MoreWitnesses.

Lemma success_has_download_url_witness :
  let body := Success (str "success") (VStr (str "Never Gonna Give You Up"))
                (VStr (str "https://cdn.example/v.mp4")) in
  snd (download_endpoint single_medium ascii_lower
         (Request (str "https://youtu.be/dQw4w9WgXcQ") (str "AUDIO")))
  = Return body
  /\ status body = str "success" /\ truthy (s_download_url body) = true.
Proof.
  split; [reflexivity|].
  exact (success_has_download_url single_medium ascii_lower
           (Request (str "https://youtu.be/dQw4w9WgXcQ") (str "AUDIO"))
           _ eq_refl).
Defined.

Lemma library_error_passed_through_witness :
  snd (download_endpoint unavailable ascii_lower
         (Request (str "https://youtu.be/dQw4w9WgXcQ") (str "audio")))
  = RaiseHTTP 500 (str "Video unavailable").
Proof.
  exact (f_equal snd
           (library_error_passed_through unavailable ascii_lower
              (Request (str "https://youtu.be/dQw4w9WgXcQ") (str "audio"))
              (Validated (str "video") (Some (str "dQw4w9WgXcQ"))
                 (str "https://www.youtube.com/watch?v=dQw4w9WgXcQ"))
              audio_opts _ eq_refl eq_refl eq_refl)).
Defined.

Lemma empty_entries_rejected_witness :
  snd (download_endpoint empty_playlist ascii_lower
         (Request (str "https://www.youtube.com/playlist?list=PL123")
                  (str "audio")))
  = RaiseHTTP 500 (str "list index out of range").
Proof.
  exact (empty_entries_rejected empty_playlist ascii_lower
           (Request (str "https://www.youtube.com/playlist?list=PL123")
                    (str "audio"))
           (Validated (str "playlist") (Some (str "PL123"))
              (str "https://www.youtube.com/playlist?list=PL123"))
           audio_opts _ eq_refl eq_refl eq_refl eq_refl).
Defined.

Lemma non_dict_entry_rejected_witness :
  snd (download_endpoint unresolved_entry ascii_lower
         (Request (str "https://www.youtube.com/playlist?list=PL123")
                  (str "video")))
  = RaiseHTTP 500 (str "'NoneType' object has no attribute 'get'").
Proof.
  exact (non_dict_entry_rejected unresolved_entry ascii_lower
           (Request (str "https://www.youtube.com/playlist?list=PL123")
                    (str "video"))
           (Validated (str "playlist") (Some (str "PL123"))
              (str "https://www.youtube.com/playlist?list=PL123"))
           video_opts _ VNone _ eq_refl eq_refl eq_refl eq_refl I).
Defined.

End MoreWitnesses.
